(** * Inventory management: the MySQL data-access layer of [inventory.py]

    A shallow embedding of class [InventoryDBMySQL] and of the part of
    the storage engine its SQL statements rely on: the two tables
    created by [ensure_tables], the transaction of a connection
    ([commit] / [rollback]), and Python exceptions as an error monad. *)

From Stdlib Require Import ZArith List String Bool Lia.
From Stdlib Require Import Permutation Sorted DecimalString.
From Stdlib Require Import Floats.PrimFloat Floats.SpecFloat Floats.FloatOps.
From Stdlib Require Import QArith.
Import ListNotations.

Local Open Scope string_scope.
Local Open Scope Z_scope.

(** ** Values *)

(** Python [float] and SQL [DOUBLE] are IEEE binary64: primitive floats. *)
Definition double := PrimFloat.float.

(** The binary64 value nearest to an integer (ties to even), infinite
    when that is beyond the largest double: what SQL makes of the INT
    in [price * stock], and what Python makes of an [int] that fits. *)
Definition float_of_int (n : Z) : double :=
  SF2Prim (binary_normalize prec emax n 0 false).

(** Whether an integer converts to a float: Python raises
    [OverflowError] exactly when the nearest double is not finite. *)
Definition float_fits (n : Z) : bool :=
  negb (PrimFloat.is_infinity (float_of_int n)).

(** [str(n)] of a Python [int], as an f-string renders it. *)
Definition str_int (n : Z) : string :=
  NilZero.string_of_int (Z.to_int n).

(** Truth value of a Python float: false exactly for [0.0] and [-0.0]. *)
Definition float_truthy (x : double) : bool := negb (PrimFloat.is_zero x).

(** ** Models (lines 10-17) *)

Record Product := mkProduct {
  id : option Z;
  name : string;
  category : option string;      (* [None] is Python's [None] *)
  price : double;
  stock : Z;
  added_date : option string
}.

(** ** Tables (lines 35-56) *)

(** A row of [products]; [category] and [added_date] are nullable. *)
Record product_row := mkProductRow {
  col_id : Z;
  col_name : string;
  col_category : option string;
  col_price : double;
  col_stock : Z;
  col_added_date : option string   (* a DATETIME, in its printed form *)
}.

(** A row of [sales]. *)
Record sale_row := mkSaleRow {
  sale_id : Z;
  product_id : Z;
  quantity : Z;
  total_price : double;
  sale_date : option string
}.

Record tables := mkTables {
  products : list product_row;
  sales : list sale_row
}.

(** The connection [self.conn]: what is committed, what the open
    transaction of the session sees, and the two AUTO_INCREMENT
    counters (which a rollback does not restore). *)
Record connection := mkConnection {
  durable : tables;
  session : tables;
  products_auto_increment : Z;
  sales_auto_increment : Z
}.

Definition with_session (t : tables) (c : connection) : connection :=
  mkConnection (durable c) t (products_auto_increment c) (sales_auto_increment c).

(** No uncommitted change is pending. *)
Definition clean (c : connection) : Prop := session c = durable c.

(** ** Exceptions and the state of the connection *)

Inductive outcome (A : Type) : Type :=
| Return (a : A)
| Raise (e : string).
Arguments Return {A} a.
Arguments Raise {A} e.

Definition M (A : Type) : Type := connection -> outcome A * connection.

Definition ret {A} (a : A) : M A := fun c => (Return a, c).

Definition bind {A B} (m : M A) (k : A -> M B) : M B :=
  fun c => match m c with
           | (Return a, c') => k a c'
           | (Raise e, c') => (Raise e, c')
           end.

(** [try: body except Exception as e: handler(str(e))] *)
Definition try_except {A} (body : M A) (handler : string -> M A) : M A :=
  fun c => match body c with
           | (Return a, c') => (Return a, c')
           | (Raise e, c') => handler e c'
           end.

(** [try: body finally: final] *)
Definition try_finally {A} (body : M A) (final : M unit) : M A :=
  fun c => match body c with
           | (o, c') =>
               match final c' with
               | (Return _, c'') => (o, c'')
               | (Raise e, c'') => (Raise e, c'')
               end
           end.

(** Python's [x * n] for a float [x] and an int [n]: [n] is converted
    first, and one too large for a float raises [OverflowError]. *)
Definition float_times_int (x : double) (n : Z) : M double :=
  fun c => if float_fits n
           then (Return (PrimFloat.mul x (float_of_int n)), c)
           else (Raise "int too large to convert to float", c).

Notation "x <- m ;; k" := (bind m (fun x => k))
  (at level 61, m at next level, right associativity).
Notation "m ;;; k" := (bind m (fun _ => k))
  (at level 61, right associativity).

(** ** SQL building blocks *)

Section OrderBy.
Context {A : Type} (key : A -> Z).

Fixpoint insert_by (x : A) (l : list A) : list A :=
  match l with
  | [] => [x]
  | y :: l' => if key x <=? key y then x :: l else y :: insert_by x l'
  end.

(** [ORDER BY key], ascending; rows of equal key keep the table's order. *)
Definition order_by (l : list A) : list A := fold_right insert_by [] l.

(** The order [ORDER BY key] establishes. *)
Definition le_by (a b : A) : Prop := key a <= key b.
End OrderBy.

Definition has_id (pid : Z) (r : product_row) : bool := col_id r =? pid.

Definition set_col_stock (v : Z) (r : product_row) : product_row :=
  mkProductRow (col_id r) (col_name r) (col_category r) (col_price r) v
               (col_added_date r).

(** [UPDATE products SET stock = f(stock) WHERE id = pid] *)
Definition update_where_id (pid : Z) (f : Z -> Z) (l : list product_row)
  : list product_row :=
  map (fun r => if has_id pid r then set_col_stock (f (col_stock r)) r else r) l.

(** The affected-rows count of that UPDATE.  [connect] (lines 26-33)
    passes no client flags, so the server counts the rows whose value
    changed, not the rows the WHERE clause matched. *)
Definition changed_where_id (pid : Z) (f : Z -> Z) (l : list product_row) : Z :=
  Z.of_nat (List.length (filter
    (fun r => has_id pid r && negb (f (col_stock r) =? col_stock r)) l)).

(** [WHERE id = pid], first row ([fetchone]). *)
Definition product_with_id (pid : Z) (t : tables) : option product_row :=
  find (has_id pid) (products t).

(** PRIMARY KEY of [products]. *)
Definition primary_key (t : tables) : Prop := NoDup (map col_id (products t)).

(** [price * stock], one value per row of [products]. *)
Definition inventory_terms (l : list product_row) : list double :=
  map (fun r => PrimFloat.mul (col_price r) (float_of_int (col_stock r))) l.

(** [SUM(e)] over the rows, in table order; NULL on no row. *)
Definition sql_sum (vals : list double) : option double :=
  match vals with
  | [] => None
  | v :: vs => Some (fold_left PrimFloat.add vs v)
  end.

(** ** The statements the class sends *)

Inductive stmt : Type :=
| InsertProduct | SelectProducts | SelectProductById
| UpdateStockAdd | UpdateStockSet | DeleteProduct | SelectLowStock
| SelectPriceStock | InsertSale | UpdateStockSub
| SelectInventoryValue | Commit
| Cursor | Rollback.

Section DataAccess.
(** Which statements the server refuses, and with which message
    (connectivity, out-of-range values, lock timeouts, ...). *)
Variable fault : stmt -> option string.
(** CURRENT_TIMESTAMP. *)
Variable now : string.

Definition server {A} (s : stmt) (run : connection -> A * connection) : M A :=
  fun c => match fault s with
           | Some e => (Raise e, c)
           | None => let (a, c') := run c in (Return a, c')
           end.

Definition query {A} (s : stmt) (q : tables -> A) : M A :=
  server s (fun c => (q (session c), c)).

(** [cur.execute(INSERT INTO products ...)]; the result is [lastrowid]. *)
Definition execute_insert_product (nm : string) (cat : option string)
           (pr : double) (st : Z) : M Z :=
  server InsertProduct (fun c =>
    let new_id := products_auto_increment c in
    let row := mkProductRow new_id nm cat pr st (Some now) in
    (new_id,
     mkConnection (durable c)
                  (mkTables (products (session c) ++ [row]) (sales (session c)))
                  (new_id + 1) (sales_auto_increment c))).

Definition execute_select_products : M (list product_row) :=
  query SelectProducts (fun t => order_by col_id (products t)).

(** [cur.execute(... WHERE id=%s); cur.fetchone()] *)
Definition execute_select_product_by_id (pid : Z) : M (option product_row) :=
  query SelectProductById (product_with_id pid).

(** The three UPDATEs; the result is [rowcount]. *)
Definition execute_update (s : stmt) (pid : Z) (f : Z -> Z) : M Z :=
  server s (fun c =>
    let t := session c in
    (changed_where_id pid f (products t),
     with_session (mkTables (update_where_id pid f (products t)) (sales t)) c)).

(** [DELETE FROM products WHERE id=%s]; the foreign key of [sales]
    is ON DELETE CASCADE (line 54).  The result is [rowcount], which
    counts the rows of [products] only. *)
Definition execute_delete_product (pid : Z) : M Z :=
  server DeleteProduct (fun c =>
    let t := session c in
    (Z.of_nat (List.length (filter (has_id pid) (products t))),
     with_session
       (mkTables (filter (fun r => negb (has_id pid r)) (products t))
                 (filter (fun s => negb (product_id s =? pid)) (sales t))) c)).

Definition execute_select_low_stock (threshold : Z) : M (list product_row) :=
  query SelectLowStock (fun t =>
    order_by col_stock (filter (fun r => col_stock r <? threshold) (products t))).

Definition execute_select_price_stock (pid : Z) : M (option (double * Z)) :=
  query SelectPriceStock (fun t =>
    option_map (fun r => (col_price r, col_stock r)) (product_with_id pid t)).

(** [INSERT INTO sales ...]; [product_id] must reference a product. *)
Definition execute_insert_sale (pid qty : Z) (total : double) : M unit :=
  fun c =>
    match fault InsertSale with
    | Some e => (Raise e, c)
    | None =>
        if existsb (has_id pid) (products (session c)) then
          let row := mkSaleRow (sales_auto_increment c) pid qty total (Some now) in
          (Return tt,
           mkConnection (durable c)
                        (mkTables (products (session c)) (sales (session c) ++ [row]))
                        (products_auto_increment c) (sales_auto_increment c + 1))
        else (Raise "Cannot add or update a child row: a foreign key constraint fails", c)
    end.

(** [SELECT SUM(price * stock) FROM products] *)
Definition execute_select_inventory_value : M (option double) :=
  query SelectInventoryValue (fun t =>
    sql_sum (inventory_terms (products t))).

(** [self.conn.commit()] *)
Definition commit : M unit :=
  server Commit (fun c =>
    (tt, mkConnection (session c) (session c)
                      (products_auto_increment c) (sales_auto_increment c))).

(** [self.conn.rollback()].  It raises when the connection is gone;
    the server discards the open transaction of a connection that
    ends, so what was uncommitted is lost then too. *)
Definition rollback : M unit :=
  fun c => match fault Rollback with
           | Some e => (Raise e, with_session (durable c) c)
           | None => (Return tt, with_session (durable c) c)
           end.

(** [self.conn.cursor()]: raises when the connection is not available.
    Only [record_sale] tells this failure from the refusal of a
    statement (line 131 is outside its [try]); from the other methods
    both leave by the same exception, and there the refusal of the
    first statement stands for either. *)
Definition cursor : M unit := server Cursor (fun c => (tt, c)).

(** [cur.close()]: local to the client, with no result left unread. *)
Definition cursor_close : M unit := ret tt.

(** ** Rows to [Product] *)

(** [str(r[5])] *)
Definition str_datetime (d : option string) : string :=
  match d with Some s => s | None => "None" end.

(** [r[2] or ""] *)
Definition or_empty (s : option string) : string :=
  match s with Some v => v | None => "" end.

(** The comprehension of [get_products] (line 81). *)
Definition product_of_row_list (r : product_row) : Product :=
  mkProduct (Some (col_id r)) (col_name r) (Some (or_empty (col_category r)))
            (col_price r) (col_stock r) (Some (str_datetime (col_added_date r))).

(** The constructor call of [get_product_by_id] and [low_stock]
    (lines 90 and 126). *)
Definition product_of_row (r : product_row) : Product :=
  mkProduct (Some (col_id r)) (col_name r) (col_category r)
            (col_price r) (col_stock r) (Some (str_datetime (col_added_date r))).

(** ** Product CRUD (lines 66-126) *)

Definition add_product (p : Product) : M Z :=
  new_id <- execute_insert_product (name p) (category p) (price p) (stock p) ;;
  commit ;;;
  ret new_id.

Definition get_products : M (list Product) :=
  rows <- execute_select_products ;;
  ret (map product_of_row_list rows).

Definition get_product_by_id (pid : Z) : M (option Product) :=
  r <- execute_select_product_by_id pid ;;
  ret (option_map product_of_row r).

Definition update_stock (pid add_qty : Z) : M bool :=
  rowcount <- execute_update UpdateStockAdd pid (fun s => s + add_qty) ;;
  commit ;;;
  ret (0 <? rowcount).

Definition set_stock (pid new_stock : Z) : M bool :=
  rowcount <- execute_update UpdateStockSet pid (fun _ => new_stock) ;;
  commit ;;;
  ret (0 <? rowcount).

Definition delete_product (pid : Z) : M bool :=
  rowcount <- execute_delete_product pid ;;
  commit ;;;
  ret (0 <? rowcount).

Definition low_stock (threshold : Z) : M (list Product) :=
  rows <- execute_select_low_stock threshold ;;
  ret (map product_of_row rows).

(** The default argument of [low_stock]. *)
Definition low_stock_default : M (list Product) := low_stock 10.

(** ** Sales (lines 130-185) *)

Definition record_sale (pid qty : Z) : M (bool * option double * string) :=
  cursor ;;;
  try_finally
    (try_except
       (row <- execute_select_price_stock pid ;;
        match row with
        | None => ret (false, None, "Product not found")
        | Some (price, stock) =>
            if stock <? qty then
              ret (false, None,
                   ("Not enough stock (available: " ++ str_int stock ++ ")")%string)
            else
              total_price <- float_times_int price qty ;;
              execute_insert_sale pid qty total_price ;;;
              execute_update UpdateStockSub pid (fun s => s - qty) ;;;
              commit ;;;
              ret (true, Some total_price, "Sale recorded")
        end)
       (fun e => rollback ;;; ret (false, None, e)))
    cursor_close.

(** [float(r[0]) if r and r[0] else 0.0] *)
Definition float_or_zero (v : option double) : double :=
  match v with
  | Some x => if float_truthy x then x else PrimFloat.zero
  | None => PrimFloat.zero
  end.

Definition get_total_inventory_value : M double :=
  r <- execute_select_inventory_value ;;
  ret (float_or_zero r).

End DataAccess.

(** No statement fails. *)
Definition no_fault : stmt -> option string := fun _ => None.

(** ** Vocabulary of the statements below *)

(** The cursor is obtained and the four statements of a successful
    [record_sale] all go through. *)
Definition sale_statements_succeed (fault : stmt -> option string) : Prop :=
  fault Cursor = None /\
  fault SelectPriceStock = None /\ fault InsertSale = None /\
  fault UpdateStockSub = None /\ fault Commit = None.

(** The first statement of the write phase of [record_sale] that the
    server refuses, refuses with message [e]. *)
Definition write_phase_failure (fault : stmt -> option string) (e : string) : Prop :=
  fault InsertSale = Some e \/
  (fault InsertSale = None /\ fault UpdateStockSub = Some e) \/
  (fault InsertSale = None /\ fault UpdateStockSub = None /\ fault Commit = Some e).

(** The row [record_sale] inserts into [sales]. *)
Definition new_sale_row (now : string) (c : connection) (pid qty : Z)
           (r : product_row) : sale_row :=
  mkSaleRow (sales_auto_increment c) pid qty
            (PrimFloat.mul (col_price r) (float_of_int qty)) (Some now).

(** The tables a recorded sale leaves behind: one more row in [sales],
    the stock of [pid] lowered by [qty]. *)
Definition tables_after_sale (now : string) (c : connection) (pid qty : Z)
           (r : product_row) : tables :=
  mkTables (update_where_id pid (fun s => s - qty) (products (session c)))
           (sales (session c) ++ [new_sale_row now c pid qty r]).

(** The rational a finite double stands for (0 for the others). *)
Definition exact (x : double) : Q :=
  match Prim2SF x with
  | S754_finite s m e =>
      ((if s then -1 else 1) * inject_Z (Zpos m) * Qpower 2 e)%Q
  | _ => 0%Q
  end.


(** Every identifier in use is below the AUTO_INCREMENT counter. *)
Definition auto_increment_fresh (c : connection) : Prop :=
  Forall (fun r => col_id r < products_auto_increment c) (products (session c)).

(** What [rowcount > 0] amounts to for the two UPDATEs. *)
Definition stock_changes (pid : Z) (f : Z -> Z) (t : tables) : bool :=
  match product_with_id pid t with
  | Some r => negb (f (col_stock r) =? col_stock r)
  | None => false
  end.

(** The element of a list of [Product] with a given identifier. *)
Definition product_has_id (pid : Z) (p : Product) : bool :=
  match id p with Some i => i =? pid | None => false end.

(** Running [record_sale] symbolically. *)
Ltac run_sale :=
  cbv [record_sale cursor cursor_close try_finally try_except float_times_int
       bind ret server query execute_select_price_stock
       execute_insert_sale execute_update commit rollback with_session].

(** A branch of [record_sale] that ends without a sale. *)
Ltac shape_done Hfalse :=
  do 2 eexists; split; [reflexivity|]; split;
  [first [apply Hfalse | right; reflexivity | left; reflexivity]
  |first [intros _ E; discriminate E | intros E; discriminate E | eauto]].

(** A branch of [record_sale] that leaves the tables as they were. *)
Ltac sale_unchanged :=
  do 2 eexists; split; [reflexivity|]; unfold clean; cbn;
  split; [auto|]; split; [reflexivity|]; left;
  split; [auto|]; split; [lia|];
  intros res E; first [discriminate E | injection E as <-; auto].

(** ** Sample stores *)

Definition timestamp : string := "2024-05-01 10:00:00".

(** The store of the scenario of the specification: one product,
    [add("Widget", "Tools", 9.99, 50)], no sale yet. *)
Definition widget : product_row :=
  mkProductRow 1 "Widget" (Some "Tools") (PrimFloat.div 999%float 100%float) 50 (Some timestamp).

Definition shop : connection :=
  mkConnection (mkTables [widget] []) (mkTables [widget] []) 2 1.

(** A product of price 1e16 next to one of price 1: the binary64 sum
    of the inventory does not see the stock of the second. *)
Definition heavy_shop : connection :=
  let t := mkTables [mkProductRow 1 "Anvil" (Some "Tools") 1e16%float 1 (Some timestamp);
                     mkProductRow 2 "Nail" (Some "Tools") 1%float 1 (Some timestamp)]
                    [] in
  mkConnection t t 3 1.



(** A product stored with a NULL category, next to the widget. *)
Definition uncategorised : product_row :=
  mkProductRow 2 "Gadget" None 5%float 7 (Some timestamp).

Definition mixed_shop : connection :=
  let t := mkTables [widget; uncategorised;
                     mkProductRow 3 "Bolt" (Some "Tools") 1%float 10 (Some timestamp);
                     mkProductRow 4 "Nut" (Some "Tools") 1%float 2 (Some timestamp)]
                    [mkSaleRow 1 2 1 5%float (Some timestamp);
                     mkSaleRow 2 1 2 (PrimFloat.mul (PrimFloat.div 999%float 100%float) 2%float)
                               (Some timestamp)] in
  mkConnection t t 5 3.

(** The server refuses the UPDATE of [record_sale]. *)
Definition update_fails (s : stmt) : option string :=
  match s with
  | UpdateStockSub => Some "Lock wait timeout exceeded"
  | _ => None
  end.

(** The connection is lost during the UPDATE of [record_sale]: the
    UPDATE raises, and so does the rollback after it. *)
Definition connection_drops (s : stmt) : option string :=
  match s with
  | UpdateStockSub => Some "Lost connection to MySQL server during query"
  | Rollback => Some "MySQL Connection not available."
  | _ => None
  end.

(** The server refuses the SELECT of [record_sale], nothing else. *)
Definition select_fails (s : stmt) : option string :=
  match s with
  | SelectPriceStock => Some "Lock wait timeout exceeded"
  | _ => None
  end.

(** A product record no validation would accept. *)
Definition invalid_product : Product :=
  mkProduct None "" (Some "Tools") (PrimFloat.opp 1%float) (-5) None.

(** ** The sales report (lines 166-177) *)

(** [DATE(sale_date)]: the date part of the printed DATETIME
    ([YYYY-MM-DD hh:mm:ss]); NULL stays NULL. *)
Definition sql_date (d : option string) : option string :=
  option_map (substring 0 10) d.

Definition day_eqb (a b : option string) : bool :=
  match a, b with
  | Some x, Some y => String.eqb x y
  | None, None => true
  | _, _ => false
  end.

(** Ascending order of dates in their printed form; NULL sorts first. *)
Definition day_leb (a b : option string) : bool :=
  match a, b with
  | None, _ => true
  | Some _, None => false
  | Some x, Some y => String.leb x y
  end.

(** [GROUP BY DATE(sale_date)] with [SUM(total_price)]: one running
    sum per day, the rows taken in table order. *)
Fixpoint add_to_group (d : option string) (v : double)
         (g : list (option string * double)) : list (option string * double) :=
  match g with
  | [] => [(d, v)]
  | (d', s) :: g' =>
      if day_eqb d' d then (d', PrimFloat.add s v) :: g'
      else (d', s) :: add_to_group d v g'
  end.

Definition group_by_day (l : list sale_row) : list (option string * double) :=
  fold_left (fun g s => add_to_group (sql_date (sale_date s)) (total_price s) g) l [].

Section OrderByLeb.
Context {A K : Type} (key : A -> K) (leb : K -> K -> bool).

Fixpoint insert_leb (x : A) (l : list A) : list A :=
  match l with
  | [] => [x]
  | y :: l' => if leb (key x) (key y) then x :: l else y :: insert_leb x l'
  end.

(** [ORDER BY key] for a key that is not a number. *)
Definition order_leb (l : list A) : list A := fold_right insert_leb [] l.
End OrderByLeb.

(** [str(r[0])] of a date or of [None]. *)
Definition str_date (d : option string) : string :=
  match d with Some s => s | None => "None" end.

Section SalesReport.
(** Whether the server refuses the query of the report. *)
Variable report_fault : option string.

Definition execute_select_sales_report : M (list (option string * double)) :=
  fun c => match report_fault with
           | Some e => (Raise e, c)
           | None => (Return (order_leb fst day_leb (group_by_day (sales (session c)))), c)
           end.

Definition get_sales_report : M (list (string * double)) :=
  rows <- execute_select_sales_report ;;
  ret (map (fun r => (str_date (fst r), snd r)) rows).
End SalesReport.

(** The day of a sale, and the totals of the sales of one day in
    table order: what a bucket of the report is compared with. *)
Definition sale_day (s : sale_row) : option string := sql_date (sale_date s).

Definition day_totals (d : option string) (l : list sale_row) : list double :=
  map total_price (filter (fun s => day_eqb (sale_day s) d) l).

(** ** The pages (lines 209-296) *)

(** What a page shows: [st.info], [st.success], [st.error], [st.write]. *)
Inductive element : Type :=
| st_info (text : string)
| st_success (text : string)
| st_error (text : string)
| st_write (text : string).

(** [next(p for p in products if p.name == chosen)]: the first product
    of that name; without one the generator raises [StopIteration],
    whose message is empty. *)
Definition next_named (chosen : string) (products : list Product) : M Product :=
  fun c => match find (fun p => String.eqb (name p) chosen) products with
           | Some p => (Return p, c)
           | None => (Raise EmptyString, c)
           end.

(** [prod.id] as the argument of a method of [DB].  The products the
    pages take it from come from [get_products], which gives each the
    identifier of its row; a product without identifier does not
    arise there and the model stops on it. *)
Definition id_of (p : Product) : M Z :=
  fun c => match id p with
           | Some i => (Return i, c)
           | None => (Raise "product without id", c)
           end.

(** The row the pages act on for a chosen name: the first one of
    that name in the order of [get_products]. *)
Definition selected_row (chosen : string) (t : tables) : option product_row :=
  find (fun r => String.eqb (col_name r) chosen) (order_by col_id (products t)).

(** [st.number_input(label, min_value=lo, max_value=hi, value=v)] on
    ints.  Streamlit raises when the initial value [v] is outside the
    bounds; the number the widget holds afterwards, [held], lies
    within them, and the model stops on one that does not. *)
Definition number_input (min_value : Z) (max_value : option Z) (value held : Z)
  : M Z :=
  fun c =>
    let outside n :=
      (n <? min_value) ||
      match max_value with Some hi => hi <? n | None => false end in
    if outside value then
      (Raise "StreamlitAPIException: the value is outside the bounds", c)
    else if outside held then
      (Raise "number outside the bounds of the input", c)
    else (Return held, c).

(** [n / d] rounded to the nearest integer, ties to even ([0 <= n], [0 < d]). *)
Definition round_half_even (n d : Z) : Z :=
  let q := n / d in
  let r := n mod d in
  if 2 * r <? d then q
  else if d <? 2 * r then q + 1
  else if Z.even q then q else q + 1.

Definition two_digits (n : Z) : string :=
  if n <? 10 then ("0" ++ str_int n)%string else str_int n.

(** [f"{total:.2f}"]: the decimal expansion of the exact value of the
    float, rounded to two places, ties to even. *)
Definition format_2f (x : double) : string :=
  match Prim2SF x with
  | S754_nan => "nan"
  | S754_infinity s => if s then "-inf" else "inf"
  | S754_zero s => if s then "-0.00" else "0.00"
  | S754_finite s m e =>
      let cents := if 0 <=? e then Zpos m * 2 ^ e * 100
                   else round_half_even (Zpos m * 100) (2 ^ (- e)) in
      ((if s then "-" else "") ++ str_int (cents / 100) ++ "."
       ++ two_digits (cents mod 100))%string
  end.

Section Pages.
Variable fault : stmt -> option string.
Variable now : string.

(** "Add Product", the form submitted with the values of its four
    inputs (lines 219-222). *)
Definition add_product_page (n c : string) (p : double) (s : Z) : M (list element) :=
  pid <- add_product fault now (mkProduct None n (Some c) p s None) ;;
  ret [st_success ("Product added (ID " ++ str_int pid ++ ")")%string].

(** "Update Stock" with the button pressed (lines 227-245);
    [held_add] and [held_set] are the numbers the two inputs hold. *)
Definition update_stock_page (chosen : string) (held_add held_set : Z)
  : M (list element) :=
  products <- get_products fault ;;
  match products with
  | [] => ret [st_info "No products found."]
  | _ =>
      prod <- next_named chosen products ;;
      let current := st_write ("Current stock: " ++ str_int (stock prod))%string in
      add <- number_input 0 None 0 held_add ;;
      set_val <- number_input 0 None (stock prod) held_set ;;
      pid <- id_of prod ;;
      if 0 <? add then
        update_stock fault pid add ;;;
        ret [current; st_success "Stock increased."]
      else
        set_stock fault pid set_val ;;;
        ret [current; st_success "Stock updated."]
  end.

(** "Record Sale" with the button pressed (lines 250-264);
    [held_qty] is the number the quantity input holds. *)
Definition record_sale_page (chosen : string) (held_qty : Z) : M (list element) :=
  products <- get_products fault ;;
  match products with
  | [] => ret [st_info "No products."]
  | _ =>
      prod <- next_named chosen products ;;
      qty <- number_input 1 (Some (stock prod)) 1 held_qty ;;
      pid <- id_of prod ;;
      res <- record_sale fault now pid qty ;;
      match res with
      | (true, Some total, _) =>
          ret [st_success ("Sale OK! Total ₹" ++ format_2f total)%string]
      | (true, None, _) =>
          fun c => (Raise "unsupported format string passed to NoneType.__format__", c)
      | (false, _, msg) => ret [st_error msg]
      end
  end.

(** "Delete Product" with the button pressed (lines 286-296). *)
Definition delete_product_page (chosen : string) : M (list element) :=
  products <- get_products fault ;;
  match products with
  | [] => ret [st_info "No products."]
  | _ =>
      prod <- next_named chosen products ;;
      pid <- id_of prod ;;
      delete_product fault pid ;;;
      ret [st_success "Deleted."]
  end.
End Pages.

(** ** Well-formed stores *)

(** FOREIGN KEY of [sales]: every sale references a product. *)
Definition referential_integrity (t : tables) : Prop :=
  Forall (fun s => existsb (has_id (product_id s)) (products t) = true) (sales t).

(** PRIMARY KEY of [sales], and its counter ahead of every identifier. *)
Definition sale_keys (c : connection) : Prop :=
  NoDup (map sale_id (sales (session c))) /\
  Forall (fun s => sale_id s < sales_auto_increment c) (sales (session c)).

(** What the schema and the methods maintain between two calls. *)
Definition well_formed (c : connection) : Prop :=
  clean c /\ primary_key (session c) /\ auto_increment_fresh c /\
  referential_integrity (session c) /\ sale_keys c.

(** A store whose only product is out of stock. *)
Definition sold_out : product_row :=
  mkProductRow 1 "Nut" (Some "Tools") 1%float 0 (Some timestamp).

Definition sold_out_shop : connection :=
  mkConnection (mkTables [sold_out] []) (mkTables [sold_out] []) 2 1.

(** Two products of the same name, and a sale of each. *)
Definition twin_shop : connection :=
  let t := mkTables [widget;
                     mkProductRow 2 "Widget" (Some "Spares") 3%float 4 (Some timestamp)]
                    [mkSaleRow 1 1 1 (PrimFloat.div 999%float 100%float)
                               (Some timestamp);
                     mkSaleRow 2 2 1 3%float (Some timestamp)] in
  mkConnection t t 3 3.

(** * Properties *)

(** ** Rows and identifiers *)

Lemma has_id_set_col_stock pid v r :
  has_id pid (set_col_stock v r) = has_id pid r.
Proof. reflexivity. Qed.

Lemma find_update_where_id x pid f l :
  find (has_id x) (update_where_id pid f l) =
  option_map (fun r => if has_id pid r then set_col_stock (f (col_stock r)) r else r)
             (find (has_id x) l).
Proof.
  induction l as [|r l IH]; simpl; [reflexivity|].
  assert (E : has_id x (if has_id pid r then set_col_stock (f (col_stock r)) r else r)
              = has_id x r) by (destruct (has_id pid r); reflexivity).
  rewrite E. destruct (has_id x r); [reflexivity | exact IH].
Qed.

Lemma find_has_id_spec pid l r :
  find (has_id pid) l = Some r -> In r l /\ col_id r = pid.
Proof.
  intros H. apply find_some in H. destruct H as [Hin Hid].
  split; [assumption|]. unfold has_id in Hid. lia.
Qed.

Lemma find_existsb {A} (p : A -> bool) l r :
  find p l = Some r -> existsb p l = true.
Proof.
  intros H. apply find_some in H. apply existsb_exists. eauto.
Qed.

Lemma update_where_id_absent pid f l :
  find (has_id pid) l = None -> update_where_id pid f l = l.
Proof.
  intros H. unfold update_where_id.
  rewrite <- (map_id l) at 2. apply map_ext_in. intros r Hr.
  rewrite (find_none _ _ H r Hr). reflexivity.
Qed.

(** ** [record_sale] *)


Lemma record_sale_commits fault now c pid qty r :
  sale_statements_succeed fault ->
  product_with_id pid (session c) = Some r ->
  qty <= col_stock r ->
  float_fits qty = true ->
  record_sale fault now pid qty c =
  (Return (true, Some (PrimFloat.mul (col_price r) (float_of_int qty)),
           "Sale recorded"),
   mkConnection (tables_after_sale now c pid qty r)
                (tables_after_sale now c pid qty r)
                (products_auto_increment c) (sales_auto_increment c + 1)).
Proof.
  intros (Hk & Hs & Hi & Hu & Hc) Hr Hle Hfit. run_sale.
  rewrite Hk, Hs. cbn [session]. rewrite Hr. cbn [option_map].
  destruct (Z.ltb_spec (col_stock r) qty); [lia|].
  rewrite Hfit, Hi. unfold product_with_id in Hr.
  rewrite (find_existsb _ _ _ Hr). rewrite Hu. cbn. rewrite Hc. reflexivity.
Qed.

(** A failure of the write phase: the tables are those before the
    call; the message comes back in the triple when the rollback goes
    through, and the exception of the rollback leaves the method when
    it does not. *)
Lemma record_sale_write_failure_cases fault now c pid qty r e :
  clean c ->
  fault Cursor = None ->
  fault SelectPriceStock = None ->
  product_with_id pid (session c) = Some r ->
  qty <= col_stock r ->
  float_fits qty = true ->
  write_phase_failure fault e ->
  exists n,
    record_sale fault now pid qty c =
    (match fault Rollback with
     | None => Return (false, None, e)
     | Some e' => Raise e'
     end,
     mkConnection (durable c) (durable c) (products_auto_increment c) n).
Proof.
  intros Hclean Hk Hs Hr Hle Hfit Hw. red in Hclean. run_sale.
  rewrite Hk, Hs. cbn [session]. rewrite Hr. cbn [option_map].
  destruct (Z.ltb_spec (col_stock r) qty); [lia|].
  rewrite Hfit. unfold product_with_id in Hr.
  destruct Hw as [Hi | [(Hi & Hu) | (Hi & Hu & Hc)]]; rewrite Hi.
  - eexists. destruct (fault Rollback); cbn; reflexivity.
  - rewrite (find_existsb _ _ _ Hr), Hu. eexists.
    destruct (fault Rollback); cbn; reflexivity.
  - rewrite (find_existsb _ _ _ Hr), Hu. cbn. rewrite Hc.
    eexists. destruct (fault Rollback); cbn; reflexivity.
Qed.

(** Every way a call of [record_sale] on a connection without
    uncommitted change can end: with the tables as they were, by a
    failure triple or an exception, or with the whole sale recorded. *)
Lemma record_sale_outcomes fault now c pid qty :
  clean c ->
  exists o c',
    record_sale fault now pid qty c = (o, c') /\
    clean c' /\
    products_auto_increment c' = products_auto_increment c /\
    ((session c' = session c /\
      sales_auto_increment c <= sales_auto_increment c' /\
      (forall res, o = Return res -> fst (fst res) = false /\ snd (fst res) = None)) \/
     (exists r, product_with_id pid (session c) = Some r /\
                qty <= col_stock r /\
                float_fits qty = true /\
                o = Return (true,
                            Some (PrimFloat.mul (col_price r) (float_of_int qty)),
                            "Sale recorded") /\
                session c' = tables_after_sale now c pid qty r /\
                sales_auto_increment c' = sales_auto_increment c + 1)).
Proof.
  intros Hclean. red in Hclean.
  run_sale.
  destruct (fault Cursor) as [e|] eqn:Hk; [sale_unchanged|].
  destruct (fault SelectPriceStock) as [e|] eqn:Hs;
    [destruct (fault Rollback); sale_unchanged|].
  cbn [session].
  destruct (product_with_id pid (session c)) as [r|] eqn:Hr; cbn [option_map];
    [|sale_unchanged].
  destruct (Z.ltb_spec (col_stock r) qty); [sale_unchanged|].
  pose proof Hr as Hr'. unfold product_with_id in Hr'.
  destruct (float_fits qty) eqn:Hfit;
    [|destruct (fault Rollback); sale_unchanged].
  destruct (fault InsertSale) as [e|] eqn:Hi;
    [destruct (fault Rollback); sale_unchanged|].
  rewrite (find_existsb _ _ _ Hr').
  destruct (fault UpdateStockSub) as [e|] eqn:Hu;
    [destruct (fault Rollback); sale_unchanged|].
  cbn.
  destruct (fault Commit) as [e|] eqn:Hc;
    [destruct (fault Rollback); sale_unchanged|].
  do 2 eexists. split; [reflexivity|]. cbn. unfold clean. cbn.
  repeat split; auto. right. exists r. repeat split; auto; lia.
Qed.

Lemma product_with_id_after_sale now c pid qty r x :
  product_with_id x (tables_after_sale now c pid qty r) =
  option_map (fun r' => if has_id pid r'
                        then set_col_stock (col_stock r' - qty) r' else r')
             (product_with_id x (session c)).
Proof. unfold product_with_id. cbn. apply find_update_where_id. Qed.





(** C3, where the code departs from it. When a statement of the write
    phase fails with message [e] on a connection without uncommitted
    change, both tables are afterwards what they were before the
    call, and [(False, None, e)] is returned as a value if the
    rollback goes through; but if [rollback()] raises as well (the
    connection is gone), its exception leaves [record_sale] unhandled. *)
Theorem record_sale_write_failure fault now c pid qty r e :
  clean c ->
  fault Cursor = None ->
  fault SelectPriceStock = None ->
  product_with_id pid (session c) = Some r ->
  qty <= col_stock r ->
  float_fits qty = true ->
  write_phase_failure fault e ->
  exists c',
    session c' = session c /\ durable c' = durable c /\
    (fault Rollback = None ->
     record_sale fault now pid qty c = (Return (false, None, e), c')) /\
    (forall e', fault Rollback = Some e' ->
                record_sale fault now pid qty c = (Raise e', c')).
Proof.
  intros Hclean Hk Hs Hr Hle Hfit Hw.
  destruct (record_sale_write_failure_cases fault now c pid qty r e
              Hclean Hk Hs Hr Hle Hfit Hw) as [n Hn].
  eexists. split; [|split; [|split]].
  3:{ intros Hrb. rewrite Hn, Hrb. reflexivity. }
  3:{ intros e' Hrb. rewrite Hn, Hrb. reflexivity. }
  - cbn. red in Hclean. auto.
  - reflexivity.
Qed.

(** C6. If a product has non-negative stock before a call of
    [record_sale] (on a connection without uncommitted changes), it
    has non-negative stock after it, whatever the identifier and the
    quantity of the sale and whether the call succeeds or fails. *)
Theorem record_sale_stock_nonnegative fault now c pid qty x r :
  clean c ->
  product_with_id x (session c) = Some r ->
  0 <= col_stock r ->
  exists r',
    product_with_id x (session (snd (record_sale fault now pid qty c))) = Some r' /\
    0 <= col_stock r'.
Proof.
  intros Hclean Hx Hpos.
  destruct (record_sale_outcomes fault now c pid qty Hclean)
    as (o & c' & Hrun & _ & _ &
        [(Hsame & _) | (r0 & Hr0 & Hle & _ & _ & Hall & _)]);
    rewrite Hrun; cbn [snd].
  - exists r. rewrite Hsame. auto.
  - rewrite Hall, product_with_id_after_sale, Hx. cbn [option_map].
    destruct (has_id pid r) eqn:Hid.
    + eexists. split; [reflexivity|]. cbn.
      destruct (find_has_id_spec _ _ _ Hx) as [_ Hxid].
      unfold has_id in Hid. assert (E : x = pid) by lia.
      rewrite E, Hr0 in Hx. injection Hx as <-. lia.
    + exists r. auto.
Qed.

(** C5, as the code has it. [record_sale] does not look at the sign of
    the quantity.  For [qty <= 0], with the cursor obtained: without a
    product of that identifier it fails with ["Product not found"] and
    changes nothing; for a product with non-negative stock and a
    quantity that converts to a float it records the sale like any
    other, one row in [sales] with quantity [qty] and the stock
    becoming [stock - qty]; for a quantity too large in magnitude for
    a float it fails with the message of the [OverflowError] and
    changes nothing.  Whenever the rollback goes through, what comes
    back is a result triple. *)
Theorem record_sale_nonpositive_quantity fault now c pid qty :
  qty <= 0 ->
  fault Cursor = None ->
  (fault SelectPriceStock = None ->
   product_with_id pid (session c) = None ->
   record_sale fault now pid qty c =
     (Return (false, None, "Product not found"), c)) /\
  (forall r,
      sale_statements_succeed fault ->
      product_with_id pid (session c) = Some r ->
      0 <= col_stock r ->
      float_fits qty = true ->
      exists c',
        record_sale fault now pid qty c =
          (Return (true, Some (PrimFloat.mul (col_price r) (float_of_int qty)),
                   "Sale recorded"), c') /\
        product_with_id pid (session c') =
          Some (set_col_stock (col_stock r - qty) r) /\
        col_stock r <= col_stock r - qty /\
        sales (session c') =
          (sales (session c) ++ [new_sale_row now c pid qty r])%list) /\
  (forall r,
      clean c ->
      fault SelectPriceStock = None ->
      fault Rollback = None ->
      product_with_id pid (session c) = Some r ->
      0 <= col_stock r ->
      float_fits qty = false ->
      exists c',
        record_sale fault now pid qty c =
          (Return (false, None, "int too large to convert to float"), c') /\
        session c' = session c /\ durable c' = durable c) /\
  (fault Rollback = None ->
   exists res c', record_sale fault now pid qty c = (Return res, c')).
Proof.
  intros Hq Hk. split; [|split; [|split]].
  - intros Hs Hr. run_sale. rewrite Hk, Hs. cbn [session]. rewrite Hr. reflexivity.
  - intros r Hok Hr Hpos Hfit. eexists. split.
    { apply record_sale_commits; [assumption | eassumption | lia | assumption]. }
    cbn [session]. repeat split; [|lia].
    rewrite product_with_id_after_sale, Hr. cbn.
    destruct (find_has_id_spec _ _ _ Hr) as [_ Hid].
    unfold has_id. rewrite Hid, Z.eqb_refl. reflexivity.
  - intros r Hclean Hs Hrb Hr Hpos Hfit. red in Hclean. run_sale.
    rewrite Hk, Hs. cbn [session]. rewrite Hr. cbn [option_map].
    destruct (Z.ltb_spec (col_stock r) qty); [lia|].
    rewrite Hfit, Hrb. eexists. split; [reflexivity|]. cbn. auto.
  - intros Hrb. run_sale. rewrite Hk, Hrb.
    destruct (fault SelectPriceStock); [do 2 eexists; reflexivity|].
    destruct (product_with_id pid (session c)) as [r|]; cbn [option_map];
      [|do 2 eexists; reflexivity].
    destruct (col_stock r <? qty); [do 2 eexists; reflexivity|].
    destruct (float_fits qty); [|do 2 eexists; reflexivity].
    destruct (fault InsertSale); [do 2 eexists; reflexivity|].
    destruct (existsb (has_id pid) (products (session c)));
      [|do 2 eexists; reflexivity].
    destruct (fault UpdateStockSub); [do 2 eexists; reflexivity|].
    cbn. destruct (fault Commit); do 2 eexists; reflexivity.
Qed.

(** ** [add_product] *)

Lemma find_app_fresh pid (l : list product_row) r :
  Forall (fun r' => col_id r' < pid) l ->
  col_id r = pid ->
  find (has_id pid) (l ++ [r]) = Some r.
Proof.
  intros Hl Hr. induction Hl as [|r' l Hlt _ IH]; cbn.
  - unfold has_id. rewrite Hr, Z.eqb_refl. reflexivity.
  - unfold has_id at 1. destruct (Z.eqb_spec (col_id r') pid); [lia | exact IH].
Qed.

(** C4, as the code has it. [add_product] validates nothing: for every
    product record, also one with an empty name or a negative price or
    stock, it appends a row with the given fields, commits, and
    returns the identifier the row was given, under which
    [get_product_by_id] then finds these fields. *)
Theorem add_product_inserts fault now c p :
  fault InsertProduct = None ->
  fault Commit = None ->
  fault SelectProductById = None ->
  auto_increment_fresh c ->
  let new_id := products_auto_increment c in
  exists c',
    add_product fault now p c = (Return new_id, c') /\
    products (session c') =
      (products (session c) ++
       [mkProductRow new_id (name p) (category p) (price p) (stock p) (Some now)])%list /\
    sales (session c') = sales (session c) /\
    durable c' = session c' /\
    get_product_by_id fault new_id c' =
      (Return (Some (mkProduct (Some new_id) (name p) (category p) (price p)
                               (stock p) (Some now))), c').
Proof.
  intros Hi Hc Hs Hfresh new_id.
  cbv [add_product bind ret server execute_insert_product commit].
  rewrite Hi. cbn. rewrite Hc. eexists. split; [reflexivity|].
  cbn. repeat split.
  cbv [get_product_by_id bind ret query server execute_select_product_by_id
       product_with_id].
  rewrite Hs. cbn. rewrite find_app_fresh; [reflexivity | exact Hfresh | reflexivity].
Qed.

(** ** What the hypotheses on the connection rest on *)

(** A method that returns has committed: the next call finds no
    uncommitted change. *)
Lemma writers_leave_clean fault now c :
  (forall p n c', add_product fault now p c = (Return n, c') -> clean c') /\
  (forall pid v b c', update_stock fault pid v c = (Return b, c') -> clean c') /\
  (forall pid v b c', set_stock fault pid v c = (Return b, c') -> clean c') /\
  (forall pid b c', delete_product fault pid c = (Return b, c') -> clean c').
Proof.
  repeat split; intros *;
    cbv [add_product update_stock set_stock delete_product bind ret server
         execute_insert_product execute_update execute_delete_product commit
         with_session];
    repeat match goal with
           | |- context [fault ?s] => destruct (fault s); cbn
           end;
    intros E; inversion E; reflexivity.
Qed.

(** [add_product] keeps the identifiers distinct and below the counter. *)
Lemma add_product_keeps_primary_key fault now p c n c' :
  primary_key (session c) ->
  auto_increment_fresh c ->
  add_product fault now p c = (Return n, c') ->
  primary_key (session c') /\ auto_increment_fresh c'.
Proof.
  unfold primary_key, auto_increment_fresh. intros Hpk Hfresh.
  cbv [add_product bind ret server execute_insert_product commit].
  destruct (fault InsertProduct); [discriminate|]. cbn.
  destruct (fault Commit); [discriminate|]. cbn.
  intros E. inversion E; subst; clear E. cbn. split.
  - rewrite map_app. cbn. apply NoDup_app_remove_l with (l := []). cbn.
    apply Permutation_NoDup with (l := products_auto_increment c
                                        :: map col_id (products (session c))).
    + apply Permutation_cons_append.
    + constructor; [|exact Hpk]. intros Hin. apply in_map_iff in Hin.
      destruct Hin as (r & Hid & Hr).
      rewrite Forall_forall in Hfresh. specialize (Hfresh r Hr). lia.
  - apply Forall_app. split.
    + eapply Forall_impl; [|exact Hfresh]. cbn. intros; lia.
    + constructor; [cbn; lia | constructor].
Qed.

(** ** [update_stock], [set_stock], [delete_product] *)

Lemma positive_count_existsb {A} (p : A -> bool) l :
  (0 <? Z.of_nat (List.length (filter p l))) = existsb p l.
Proof.
  induction l as [|a l IH]; cbn; [reflexivity|].
  destruct (p a); cbn [orb]; [|exact IH].
  cbn [List.length]. destruct (Z.ltb_spec 0 (Z.of_nat (S (List.length (filter p l))))); lia.
Qed.

Lemma existsb_absent pid (q : product_row -> bool) l :
  ~ In pid (map col_id l) ->
  existsb (fun r => has_id pid r && q r) l = false.
Proof.
  induction l as [|r l IH]; cbn; [reflexivity|]. intros Hn.
  unfold has_id at 1. destruct (Z.eqb_spec (col_id r) pid); [tauto|].
  cbn. apply IH. tauto.
Qed.

Lemma existsb_changed_primary_key pid (q : product_row -> bool) l :
  NoDup (map col_id l) ->
  existsb (fun r => has_id pid r && q r) l =
  match find (has_id pid) l with Some r => q r | None => false end.
Proof.
  induction l as [|r l IH]; cbn; [reflexivity|]. intros Hnd.
  inversion Hnd as [|? ? Hnotin Hnd']; subst.
  destruct (has_id pid r) eqn:Hid; cbn [andb orb].
  - unfold has_id in Hid. apply Z.eqb_eq in Hid. rewrite Hid in Hnotin.
    rewrite (existsb_absent pid q l Hnotin). apply orb_false_r.
  - apply IH. exact Hnd'.
Qed.

Lemma execute_update_commit fault s c pid f :
  fault s = None ->
  fault Commit = None ->
  primary_key (session c) ->
  (rowcount <- execute_update fault s pid f ;;
   commit fault ;;;
   ret (0 <? rowcount)) c =
  (Return (stock_changes pid f (session c)),
   let t := mkTables (update_where_id pid f (products (session c)))
                     (sales (session c)) in
   mkConnection t t (products_auto_increment c) (sales_auto_increment c)).
Proof.
  intros Hs Hc Hpk.
  cbv [bind ret server execute_update commit with_session].
  rewrite Hs. cbn. rewrite Hc. cbn.
  unfold changed_where_id. rewrite positive_count_existsb.
  rewrite (existsb_changed_primary_key pid
             (fun r => negb (f (col_stock r) =? col_stock r)) _ Hpk).
  reflexivity.
Qed.

(** C7, where the code departs from it. With the statements going
    through, [update_stock] and [set_stock] set the stock of the
    product with that identifier to [stock + amount], respectively to
    [value], and change nothing when there is no such product.  But
    the flag they return is [rowcount > 0], the number of rows the
    UPDATE changed: it is true when the product exists and its stock
    gets a different value, and false not only when no product has
    the identifier but also for an existing product whose stock is
    left at the same value ([amount = 0], respectively
    [value = stock]). *)
Theorem stock_updates_report_changes fault c pid v :
  fault UpdateStockAdd = None ->
  fault UpdateStockSet = None ->
  fault Commit = None ->
  primary_key (session c) ->
  (exists ok c',
      update_stock fault pid v c = (Return ok, c') /\
      (ok = true <-> (product_with_id pid (session c) <> None /\ v <> 0)) /\
      product_with_id pid (session c') =
        option_map (fun r => set_col_stock (col_stock r + v) r)
                   (product_with_id pid (session c)) /\
      (product_with_id pid (session c) = None -> session c' = session c) /\
      durable c' = session c') /\
  (exists ok c',
      set_stock fault pid v c = (Return ok, c') /\
      (ok = true <->
       exists r, product_with_id pid (session c) = Some r /\ v <> col_stock r) /\
      product_with_id pid (session c') =
        option_map (fun r => set_col_stock v r) (product_with_id pid (session c)) /\
      (product_with_id pid (session c) = None -> session c' = session c) /\
      durable c' = session c').
Proof.
  intros Ha Hs Hc Hpk.
  assert (Hfind : forall f,
    product_with_id pid
      (mkTables (update_where_id pid f (products (session c))) (sales (session c))) =
    option_map (fun r => set_col_stock (f (col_stock r)) r)
               (product_with_id pid (session c))).
  { intros f. unfold product_with_id. cbn. rewrite find_update_where_id.
    destruct (find (has_id pid) (products (session c))) as [r|] eqn:Hr;
      [|reflexivity].
    cbn. destruct (find_has_id_spec _ _ _ Hr) as [_ Hid].
    unfold has_id. rewrite Hid, Z.eqb_refl. reflexivity. }
  assert (Hnone : forall f,
    product_with_id pid (session c) = None ->
    mkTables (update_where_id pid f (products (session c))) (sales (session c)) =
    session c).
  { intros f Hn. unfold product_with_id in Hn.
    rewrite (update_where_id_absent _ _ _ Hn). destruct (session c); reflexivity. }
  split; do 2 eexists.
  - split; [apply (execute_update_commit fault UpdateStockAdd); assumption|].
    cbn [session durable]. repeat split; auto.
    + unfold stock_changes in H.
      destruct (product_with_id pid (session c)); discriminate.
    + unfold stock_changes in H.
      destruct (product_with_id pid (session c)); [|discriminate].
      intros ->. rewrite Z.add_0_r, Z.eqb_refl in H. discriminate.
    + intros [Hex Hv]. unfold stock_changes.
      destruct (product_with_id pid (session c)) as [r|]; [|contradiction].
      destruct (Z.eqb_spec (col_stock r + v) (col_stock r)); [lia | reflexivity].
  - split; [apply (execute_update_commit fault UpdateStockSet); assumption|].
    cbn [session durable]. repeat split; auto.
    + unfold stock_changes. intros H.
      destruct (product_with_id pid (session c)) as [r|]; [|discriminate].
      exists r. split; [reflexivity|].
      intros ->. rewrite Z.eqb_refl in H. discriminate.
    + intros (r & Hr & Hv). unfold stock_changes. rewrite Hr.
      destruct (Z.eqb_spec v (col_stock r)); [contradiction | reflexivity].
Qed.

Lemma find_filter_out pid (l : list product_row) :
  find (has_id pid) (filter (fun r => negb (has_id pid r)) l) = None.
Proof.
  induction l as [|r l IH]; cbn; [reflexivity|].
  destruct (has_id pid r) eqn:Hid; cbn; [exact IH|]. rewrite Hid. exact IH.
Qed.

Lemma filter_out_absent pid (l : list product_row) :
  find (has_id pid) l = None ->
  filter (fun r => negb (has_id pid r)) l = l.
Proof.
  induction l as [|r l IH]; cbn; [reflexivity|].
  destruct (has_id pid r); cbn; [discriminate|]. intros H. f_equal. auto.
Qed.

(** C9. With the statements going through, [delete_product] returns
    true exactly when a product has that identifier; afterwards no row
    of [products] has it and no row of [sales] references it, every
    other row of both tables is kept, the change is committed, and
    [get_product_by_id] returns [None] for it. *)
Theorem delete_product_cascades fault c pid :
  fault DeleteProduct = None ->
  fault Commit = None ->
  fault SelectProductById = None ->
  exists ok c',
    delete_product fault pid c = (Return ok, c') /\
    (ok = true <-> product_with_id pid (session c) <> None) /\
    (forall r, In r (products (session c')) <->
               In r (products (session c)) /\ col_id r <> pid) /\
    (forall s, In s (sales (session c')) <->
               In s (sales (session c)) /\ product_id s <> pid) /\
    durable c' = session c' /\
    get_product_by_id fault pid c' = (Return None, c') /\
    (product_with_id pid (session c) = None ->
     products (session c') = products (session c)).
Proof.
  intros Hd Hc Hs.
  cbv [delete_product bind ret server execute_delete_product commit with_session].
  rewrite Hd. cbn. rewrite Hc. do 2 eexists. split; [reflexivity|].
  cbn [session durable products sales]. repeat split.
  - rewrite positive_count_existsb. intros H Hn.
    apply existsb_exists in H. destruct H as (r & Hin & Hid).
    unfold product_with_id in Hn. rewrite (find_none _ _ Hn r Hin) in Hid.
    discriminate.
  - rewrite positive_count_existsb. intros H.
    unfold product_with_id in H.
    destruct (find (has_id pid) (products (session c))) as [r|] eqn:Hr;
      [|contradiction].
    eapply find_existsb. exact Hr.
  - apply filter_In in H. tauto.
  - apply filter_In in H. destruct H as [_ H]. unfold has_id in H.
    destruct (Z.eqb_spec (col_id r) pid); [discriminate | assumption].
  - intros [Hin Hne]. apply filter_In. split; [assumption|].
    unfold has_id. destruct (Z.eqb_spec (col_id r) pid); [contradiction | reflexivity].
  - apply filter_In in H. tauto.
  - apply filter_In in H. destruct H as [_ H].
    destruct (Z.eqb_spec (product_id s) pid); [discriminate | assumption].
  - intros [Hin Hne]. apply filter_In. split; [assumption|].
    destruct (Z.eqb_spec (product_id s) pid); [contradiction | reflexivity].
  - cbv [get_product_by_id bind ret query server execute_select_product_by_id
         product_with_id].
    rewrite Hs. cbn. rewrite find_filter_out. reflexivity.
  - intros Hn. apply filter_out_absent. exact Hn.
Qed.

(** ** [ORDER BY] *)

Section OrderByFacts.
Context {A : Type} (key : A -> Z).

Lemma insert_by_perm x l : Permutation (insert_by key x l) (x :: l).
Proof.
  induction l as [|y l IH]; cbn; [reflexivity|].
  destruct (key x <=? key y); [reflexivity|].
  rewrite IH. apply perm_swap.
Qed.

Lemma order_by_perm l : Permutation (order_by key l) l.
Proof.
  induction l as [|x l IH]; cbn; [constructor|].
  rewrite insert_by_perm. now constructor.
Qed.

Lemma insert_by_sorted x l :
  StronglySorted (le_by key) l -> StronglySorted (le_by key) (insert_by key x l).
Proof.
  induction 1 as [|y l Hs IH Hall]; cbn.
  - repeat constructor.
  - destruct (Z.leb_spec (key x) (key y)) as [Hle|Hgt].
    + constructor; [constructor; assumption|].
      constructor; [exact Hle|].
      eapply Forall_impl; [|exact Hall].
      intros a Ha. unfold le_by in *. lia.
    + constructor; [exact IH|].
      eapply Permutation_Forall; [symmetry; apply insert_by_perm|].
      constructor; [unfold le_by; lia | exact Hall].
Qed.

Lemma order_by_sorted l : StronglySorted (le_by key) (order_by key l).
Proof.
  induction l as [|x l IH]; cbn; [constructor|].
  apply insert_by_sorted, IH.
Qed.
End OrderByFacts.

(** ** [low_stock] *)

Lemma sorted_map_product_of_row l :
  StronglySorted (le_by col_stock) l ->
  StronglySorted (le_by stock) (map product_of_row l).
Proof.
  induction 1 as [|r l Hs IH Hall]; cbn; constructor; [exact IH|].
  apply Forall_map. exact Hall.
Qed.

(** C8. [low_stock threshold] returns, for exactly the rows of
    [products] whose stock is strictly below the threshold, each once,
    the [Product] that carries the six columns of the row (identifier,
    name, category, price, stock and the printed date), in ascending
    order of stock; no product of a row whose stock is at or above the
    threshold is returned.  The default threshold is 10. *)
Theorem low_stock_exact fault c threshold :
  fault SelectLowStock = None ->
  let product r :=
    mkProduct (Some (col_id r)) (col_name r) (col_category r) (col_price r)
              (col_stock r)
              (Some (match col_added_date r with Some d => d | None => "None" end)) in
  exists rows,
    low_stock fault threshold c = (Return (map product rows), c) /\
    Permutation rows
      (filter (fun r => col_stock r <? threshold) (products (session c))) /\
    (forall r, In r rows <-> In r (products (session c)) /\ col_stock r < threshold) /\
    StronglySorted (le_by col_stock) rows /\
    StronglySorted (le_by stock) (map product rows) /\
    (forall p, In p (map product rows) -> stock p < threshold) /\
    low_stock_default fault c = low_stock fault 10 c.
Proof.
  intros Hf product.
  cbv [low_stock bind ret query server execute_select_low_stock].
  rewrite Hf.
  set (sel := filter (fun r => col_stock r <? threshold) (products (session c))).
  exists (order_by col_stock sel).
  pose proof (order_by_perm col_stock sel) as Hperm.
  assert (Hrows : forall r, In r (order_by col_stock sel) <->
                            In r (products (session c)) /\ col_stock r < threshold).
  { intros r. split.
    - intros Hin. apply (Permutation_in _ Hperm) in Hin.
      apply filter_In in Hin. destruct Hin as [Hin Hlt].
      apply Z.ltb_lt in Hlt. auto.
    - intros [Hin Hlt]. apply (Permutation_in _ (Permutation_sym Hperm)).
      apply filter_In. split; [exact Hin|]. apply Z.ltb_lt. exact Hlt. }
  split; [reflexivity|]. split; [exact Hperm|]. split; [exact Hrows|].
  split; [apply order_by_sorted|]. split; [|split].
  - apply (sorted_map_product_of_row (order_by col_stock sel)), order_by_sorted.
  - intros p Hp. apply in_map_iff in Hp. destruct Hp as (r & <- & Hr).
    apply Hrows in Hr. cbn. tauto.
  - cbv [low_stock_default low_stock bind ret query server
         execute_select_low_stock].
    rewrite Hf. reflexivity.
Qed.

(** ** [get_product_by_id] against [get_products] *)

Lemma find_unique_id pid (l : list product_row) r :
  NoDup (map col_id l) -> In r l -> col_id r = pid ->
  find (has_id pid) l = Some r.
Proof.
  induction l as [|a l IH]; cbn; [contradiction|].
  intros Hnd [-> | Hin] Hid.
  - unfold has_id. rewrite Hid, Z.eqb_refl. reflexivity.
  - inversion Hnd as [|? ? Hnotin Hnd']; subst.
    unfold has_id at 1. destruct (Z.eqb_spec (col_id a) (col_id r)) as [E|_].
    + exfalso. apply Hnotin. rewrite E. apply in_map. exact Hin.
    + apply IH; auto.
Qed.

Lemma find_order_by_id pid (l : list product_row) r :
  NoDup (map col_id l) ->
  find (has_id pid) l = Some r ->
  find (has_id pid) (order_by col_id l) = Some r.
Proof.
  intros Hnd Hr. destruct (find_has_id_spec _ _ _ Hr) as [Hin Hid].
  pose proof (order_by_perm col_id l) as Hp.
  apply find_unique_id; [|eapply Permutation_in; [symmetry|]; eassumption | exact Hid].
  eapply Permutation_NoDup; [|exact Hnd].
  apply Permutation_map. symmetry. exact Hp.
Qed.

Lemma find_map_product_of_row_list pid (l : list product_row) :
  find (product_has_id pid) (map product_of_row_list l) =
  option_map product_of_row_list (find (has_id pid) l).
Proof.
  induction l as [|r l IH]; cbn [map find]; [reflexivity|].
  change (product_has_id pid (product_of_row_list r)) with (has_id pid r).
  destruct (has_id pid r); [reflexivity | exact IH].
Qed.

(** The two reads of one product, side by side. *)
Lemma get_product_by_id_and_get_products fault c pid r :
  fault SelectProducts = None ->
  fault SelectProductById = None ->
  primary_key (session c) ->
  product_with_id pid (session c) = Some r ->
  get_product_by_id fault pid c = (Return (Some (product_of_row r)), c) /\
  exists ps,
    get_products fault c = (Return ps, c) /\
    find (product_has_id pid) ps = Some (product_of_row_list r).
Proof.
  intros Hl Hs Hpk Hr. split.
  - cbv [get_product_by_id bind ret query server execute_select_product_by_id].
    rewrite Hs, Hr. reflexivity.
  - cbv [get_products bind ret query server execute_select_products].
    rewrite Hl. eexists. split; [reflexivity|].
    rewrite find_map_product_of_row_list.
    rewrite (find_order_by_id pid _ r Hpk Hr). reflexivity.
Qed.

(** Where the category is not NULL the two reads agree field for field. *)
Lemma get_product_by_id_agrees_on_category fault c pid r s :
  fault SelectProducts = None ->
  fault SelectProductById = None ->
  primary_key (session c) ->
  product_with_id pid (session c) = Some r ->
  col_category r = Some s ->
  exists p ps,
    get_product_by_id fault pid c = (Return (Some p), c) /\
    get_products fault c = (Return ps, c) /\
    find (product_has_id pid) ps = Some p.
Proof.
  intros Hl Hs Hpk Hr Hcat.
  destruct (get_product_by_id_and_get_products fault c pid r Hl Hs Hpk Hr)
    as (Hg & ps & Hps & Hfind).
  exists (product_of_row r), ps. repeat split; auto.
  rewrite Hfind. unfold product_of_row_list, product_of_row.
  rewrite Hcat. reflexivity.
Qed.

(** C10, where the code departs from it. For a product whose category
    is NULL, [get_product_by_id] returns category [None] while the
    element of [get_products] with the same identifier has category
    [""]: the two records differ. *)
Theorem get_product_by_id_null_category fault c pid r :
  fault SelectProducts = None ->
  fault SelectProductById = None ->
  primary_key (session c) ->
  product_with_id pid (session c) = Some r ->
  col_category r = None ->
  exists p q ps,
    get_product_by_id fault pid c = (Return (Some p), c) /\
    get_products fault c = (Return ps, c) /\
    find (product_has_id pid) ps = Some q /\
    category p = None /\
    category q = Some ""%string /\
    p <> q.
Proof.
  intros Hl Hs Hpk Hr Hcat.
  destruct (get_product_by_id_and_get_products fault c pid r Hl Hs Hpk Hr)
    as (Hg & ps & Hps & Hfind).
  exists (product_of_row r), (product_of_row_list r), ps.
  repeat split; auto.
  - cbn. rewrite Hcat. reflexivity.
  - intros E. apply (f_equal category) in E. cbn in E.
    rewrite Hcat in E. discriminate.
Qed.

(** * The properties at the sample stores *)




(** The returned value can even stay the same: next to a product of
    price 1e16, selling the one piece of a product of price 1 leaves
    the inventory value at 1e16. *)
Lemma record_sale_value_unchanged_example :
  exists c' v,
    fst (record_sale no_fault timestamp 2 1 heavy_shop) =
      Return (true, Some 1%float, "Sale recorded") /\
    snd (record_sale no_fault timestamp 2 1 heavy_shop) = c' /\
    get_total_inventory_value no_fault heavy_shop = (Return v, heavy_shop) /\
    get_total_inventory_value no_fault c' = (Return v, c').
Proof. do 2 eexists. repeat split. Qed.

(** What [exact] makes of two doubles: 3 is 3, and 0.1 is the
    fraction with denominator 2^55 that the double stores. *)
Lemma exact_of_three_and_of_a_tenth :
  (exact (float_of_int 3) == 3)%Q /\
  (exact (PrimFloat.div 1%float 10%float) ==
   3602879701896397 # 36028797018963968)%Q.
Proof. split; vm_compute; reflexivity. Qed.

Lemma record_sale_write_failure_witness :
  exists c',
    session c' = session shop /\ durable c' = durable shop /\
    record_sale connection_drops timestamp 1 5 shop =
      (Raise "MySQL Connection not available.", c') /\
    record_sale update_fails timestamp 1 5 shop =
      (Return (false, None, "Lock wait timeout exceeded"), c').
Proof.
  destruct (record_sale_write_failure connection_drops timestamp shop 1 5 widget
              "Lost connection to MySQL server during query")
    as (c' & Hs & Hd & _ & Hraise).
  - reflexivity.
  - reflexivity.
  - reflexivity.
  - reflexivity.
  - discriminate.
  - reflexivity.
  - right. left. split; reflexivity.
  - exists c'. split; [exact Hs|]. split; [exact Hd|].
    pose proof (Hraise _ eq_refl) as Hrun. split; [exact Hrun|].
    assert (E : c' = snd (record_sale connection_drops timestamp 1 5 shop))
      by (rewrite Hrun; reflexivity).
    rewrite E. reflexivity.
Defined.

Lemma record_sale_stock_nonnegative_witness :
  exists r',
    product_with_id 1
      (session (snd (record_sale no_fault timestamp 1 5 shop))) = Some r' /\
    0 <= col_stock r'.
Proof.
  apply (record_sale_stock_nonnegative no_fault timestamp shop 1 5 1 widget).
  - reflexivity.
  - reflexivity.
  - discriminate.
Defined.

(** C5 as stated fails: a sale of quantity [-3] of the widget is
    accepted, adds a row to [sales] and raises the stock from 50 to 53. *)
Lemma record_sale_negative_quantity_counterexample :
  exists c' total,
    -3 <= 0 /\
    record_sale no_fault timestamp 1 (-3) shop =
      (Return (true, Some total, "Sale recorded"), c') /\
    sales (session c') = [mkSaleRow 1 1 (-3) total (Some timestamp)] /\
    option_map col_stock (product_with_id 1 (session c')) = Some 53 /\
    sales (session shop) = [] /\
    option_map col_stock (product_with_id 1 (session shop)) = Some 50.
Proof.
  do 2 eexists. split; [discriminate|]. repeat split.
Qed.

Lemma record_sale_nonpositive_quantity_witness :
  exists c',
    record_sale no_fault timestamp 1 (-3) shop =
      (Return (true, Some (PrimFloat.mul (col_price widget) (float_of_int (-3))),
               "Sale recorded"), c') /\
    product_with_id 1 (session c') = Some (set_col_stock 53 widget).
Proof.
  destruct (record_sale_nonpositive_quantity no_fault timestamp shop 1 (-3))
    as (_ & Hsale & _); [discriminate | reflexivity |].
  destruct (Hsale widget) as (c' & Hrun & Hstock & _).
  - repeat split.
  - reflexivity.
  - discriminate.
  - reflexivity.
  - exists c'. split; [exact Hrun | exact Hstock].
Defined.

(** C4 as stated fails: a product with an empty name, price [-1.0]
    and stock [-5] is inserted and its identifier returned. *)
Lemma add_product_invalid_counterexample :
  exists c',
    name invalid_product = ""%string /\
    stock invalid_product < 0 /\
    add_product no_fault timestamp invalid_product shop = (Return 2, c') /\
    products (session c') =
      [widget;
       mkProductRow 2 "" (Some "Tools") (PrimFloat.opp 1%float) (-5) (Some timestamp)] /\
    durable c' = session c'.
Proof.
  eexists. repeat split.
Qed.

Lemma add_product_inserts_witness :
  exists c',
    add_product no_fault timestamp invalid_product shop = (Return 2, c') /\
    get_product_by_id no_fault 2 c' =
      (Return (Some (mkProduct (Some 2) "" (Some "Tools") (PrimFloat.opp 1%float)
                               (-5) (Some timestamp))), c').
Proof.
  destruct (add_product_inserts no_fault timestamp shop invalid_product)
    as (c' & Hrun & _ & _ & _ & Hget).
  - reflexivity.
  - reflexivity.
  - reflexivity.
  - repeat constructor.
  - exists c'. split; [exact Hrun | exact Hget].
Defined.

(** C7 as stated fails: the widget exists, yet setting its stock to
    the value it has (50), or adding 0 to it, returns false. *)
Lemma set_stock_same_value_counterexample :
  product_with_id 1 (session shop) = Some widget /\
  fst (set_stock no_fault 1 50 shop) = Return false /\
  fst (update_stock no_fault 1 0 shop) = Return false.
Proof. repeat split. Qed.

Lemma stock_updates_report_changes_witness :
  product_with_id 1 (session shop) = Some widget /\
  (exists c', update_stock no_fault 1 0 shop = (Return false, c')) /\
  (exists c', set_stock no_fault 1 50 shop = (Return false, c') /\
              product_with_id 1 (session c') = Some (set_col_stock 50 widget)).
Proof.
  assert (Hpk : primary_key (session shop))
    by (constructor; [intros [] | constructor]).
  split; [reflexivity|]. split.
  - destruct (stock_updates_report_changes no_fault shop 1 0
                eq_refl eq_refl eq_refl Hpk)
      as [(ok & c' & Hrun & Hok & _) _].
    exists c'. destruct ok; [|exact Hrun].
    destruct (proj1 Hok eq_refl) as [_ Hne]. exfalso. apply Hne. reflexivity.
  - destruct (stock_updates_report_changes no_fault shop 1 50
                eq_refl eq_refl eq_refl Hpk)
      as [_ (ok & c' & Hrun & Hok & Hstock & _)].
    exists c'. split; [|exact Hstock]. destruct ok; [|exact Hrun].
    destruct (proj1 Hok eq_refl) as (r & Hr & Hne).
    injection Hr as <-. exfalso. apply Hne. reflexivity.
Defined.

Lemma low_stock_exact_witness :
  exists rows,
    low_stock no_fault 10 mixed_shop =
      (Return (map (fun r =>
                 mkProduct (Some (col_id r)) (col_name r) (col_category r)
                           (col_price r) (col_stock r)
                           (Some (match col_added_date r with
                                  | Some d => d
                                  | None => "None"
                                  end))) rows), mixed_shop) /\
    Permutation rows
      [uncategorised; mkProductRow 4 "Nut" (Some "Tools") 1%float 2 (Some timestamp)] /\
    low_stock no_fault 10 mixed_shop =
      (Return [mkProduct (Some 4) "Nut" (Some "Tools") 1%float 2 (Some timestamp);
               mkProduct (Some 2) "Gadget" None 5%float 7 (Some timestamp)],
       mixed_shop).
Proof.
  destruct (low_stock_exact no_fault mixed_shop 10 eq_refl)
    as (rows & Hrun & Hperm & _).
  exists rows. split; [exact Hrun|]. split; [exact Hperm | reflexivity].
Defined.

Lemma delete_product_cascades_witness :
  exists ok c',
    delete_product no_fault 2 mixed_shop = (Return ok, c') /\
    (ok = true <-> product_with_id 2 (session mixed_shop) <> None) /\
    (forall s, In s (sales (session c')) <->
               In s (sales (session mixed_shop)) /\ product_id s <> 2) /\
    get_product_by_id no_fault 2 c' = (Return None, c').
Proof.
  destruct (delete_product_cascades no_fault mixed_shop 2)
    as (ok & c' & Hrun & Hok & _ & Hsales & _ & Hget & _).
  - reflexivity.
  - reflexivity.
  - reflexivity.
  - exists ok, c'. split; [exact Hrun|]. split; [exact Hok|].
    split; [exact Hsales | exact Hget].
Defined.

Lemma get_product_by_id_null_category_witness :
  exists p q ps,
    get_product_by_id no_fault 2 mixed_shop = (Return (Some p), mixed_shop) /\
    get_products no_fault mixed_shop = (Return ps, mixed_shop) /\
    find (product_has_id 2) ps = Some q /\
    category p = None /\
    category q = Some ""%string /\
    p <> q.
Proof.
  apply (get_product_by_id_null_category no_fault mixed_shop 2 uncategorised).
  - reflexivity.
  - reflexivity.
  - repeat constructor; cbn; intuition discriminate.
  - reflexivity.
  - reflexivity.
Defined.

(** * More of [record_sale] *)

(** X1. With the cursor obtained, the SELECT answered and no product
    of that identifier, [record_sale] returns [(False, None, "Product
    not found")] for any quantity and leaves the connection as it was. *)
Theorem record_sale_product_not_found fault now c pid qty :
  fault Cursor = None ->
  fault SelectPriceStock = None ->
  product_with_id pid (session c) = None ->
  record_sale fault now pid qty c =
  (Return (false, None, "Product not found"), c).
Proof.
  intros Hk Hs Hr. run_sale. rewrite Hk, Hs. cbn [session]. rewrite Hr. reflexivity.
Qed.

(** X2. How a call of [record_sale] can end.  It raises only the
    exception of [cursor()] or of [rollback()]; with both going
    through it returns a triple, whatever statement the server
    refuses.  In a returned triple the total is a number exactly when
    the flag is true, and then the message is ["Sale recorded"] and
    the total is [price * qty] of an existing product with
    [qty <= stock]; a failed call never carries a total. *)
Theorem record_sale_result_shape fault now c pid qty :
  exists o c',
    record_sale fault now pid qty c = (o, c') /\
    match o with
    | Raise e => fault Cursor = Some e \/ fault Rollback = Some e
    | Return (ok, total, msg) =>
        (ok = true <-> total <> None) /\
        (ok = true ->
         msg = "Sale recorded" /\
         exists r, product_with_id pid (session c) = Some r /\
                   qty <= col_stock r /\
                   float_fits qty = true /\
                   total = Some (PrimFloat.mul (col_price r) (float_of_int qty)))
    end /\
    (fault Cursor = None -> fault Rollback = None -> exists res, o = Return res).
Proof.
  assert (Hfalse : forall (msg : string),
    (false = true <-> @None double <> None) /\
    (false = true ->
     msg = "Sale recorded" /\
     exists r, product_with_id pid (session c) = Some r /\
               qty <= col_stock r /\
               float_fits qty = true /\
               @None double = Some (PrimFloat.mul (col_price r) (float_of_int qty)))).
  { intros msg. split; [split|]; [discriminate | congruence | discriminate]. }
  destruct (fault Rollback) as [erb|] eqn:Hrb; run_sale; rewrite ?Hrb;
    (destruct (fault Cursor) as [e|] eqn:Hk; [shape_done Hfalse|]);
    (destruct (fault SelectPriceStock); [shape_done Hfalse|]); cbn [session];
    (destruct (product_with_id pid (session c)) as [r|] eqn:Hr; cbn [option_map];
       [|shape_done Hfalse]);
    (destruct (Z.ltb_spec (col_stock r) qty); [shape_done Hfalse|]);
    (destruct (float_fits qty) eqn:Hfit; [|shape_done Hfalse]);
    (destruct (fault InsertSale); [shape_done Hfalse|]);
    (destruct (existsb (has_id pid) (products (session c))); [|shape_done Hfalse]);
    (destruct (fault UpdateStockSub); [shape_done Hfalse|]); cbn;
    (destruct (fault Commit); [shape_done Hfalse|]);
    (do 2 eexists; split; [reflexivity|]; split; [|eauto];
     split; [split; [discriminate | reflexivity]|];
     intros _; split; [reflexivity|]; exists r; repeat split; lia).
Qed.

(** X3. When the server refuses the SELECT itself (the cursor having
    been obtained), both tables stay as they were; the message of the
    failure comes back as [(False, None, message)] if the rollback
    goes through, and the exception of the rollback leaves the method
    if it does not. *)
Theorem record_sale_read_failure fault now c pid qty e :
  clean c ->
  fault Cursor = None ->
  fault SelectPriceStock = Some e ->
  exists c',
    session c' = session c /\ durable c' = durable c /\
    (fault Rollback = None ->
     record_sale fault now pid qty c = (Return (false, None, e), c')) /\
    (forall e', fault Rollback = Some e' ->
                record_sale fault now pid qty c = (Raise e', c')).
Proof.
  intros Hclean Hk Hs. red in Hclean.
  exists (mkConnection (durable c) (durable c)
                       (products_auto_increment c) (sales_auto_increment c)).
  cbn. split; [auto|]. split; [reflexivity|]. split.
  - intros Hrb. run_sale. rewrite Hk, Hs, Hrb. reflexivity.
  - intros e' Hrb. run_sale. rewrite Hk, Hs, Hrb. reflexivity.
Qed.

(** X4. Two sales in a row of quantities that convert to floats: when
    both fit the stock, [qty1 <= stock] and [qty2 <= stock - qty1],
    both succeed, the stock ends at [stock - qty1 - qty2] and two rows
    are appended to [sales], the second with the next identifier. *)
Theorem record_sale_twice fault now1 now2 c pid qty1 qty2 r :
  sale_statements_succeed fault ->
  product_with_id pid (session c) = Some r ->
  qty1 <= col_stock r ->
  qty2 <= col_stock r - qty1 ->
  float_fits qty1 = true ->
  float_fits qty2 = true ->
  exists c1 c2,
    record_sale fault now1 pid qty1 c =
      (Return (true, Some (PrimFloat.mul (col_price r) (float_of_int qty1)),
               "Sale recorded"), c1) /\
    record_sale fault now2 pid qty2 c1 =
      (Return (true, Some (PrimFloat.mul (col_price r) (float_of_int qty2)),
               "Sale recorded"), c2) /\
    product_with_id pid (session c2) =
      Some (set_col_stock (col_stock r - qty1 - qty2) r) /\
    sales (session c2) =
      (sales (session c) ++
       [mkSaleRow (sales_auto_increment c) pid qty1
                  (PrimFloat.mul (col_price r) (float_of_int qty1)) (Some now1);
        mkSaleRow (sales_auto_increment c + 1) pid qty2
                  (PrimFloat.mul (col_price r) (float_of_int qty2)) (Some now2)])%list.
Proof.
  intros Hok Hr Hq1 Hq2 Hfit1 Hfit2.
  pose proof (record_sale_commits fault now1 c pid qty1 r Hok Hr Hq1 Hfit1) as H1.
  set (c1 := mkConnection (tables_after_sale now1 c pid qty1 r)
                          (tables_after_sale now1 c pid qty1 r)
                          (products_auto_increment c) (sales_auto_increment c + 1)) in *.
  assert (Hr1 : product_with_id pid (session c1) =
                Some (set_col_stock (col_stock r - qty1) r)).
  { cbn [c1 session]. rewrite product_with_id_after_sale, Hr. cbn.
    destruct (find_has_id_spec _ _ _ Hr) as [_ Hid].
    unfold has_id. rewrite Hid, Z.eqb_refl. reflexivity. }
  pose proof (record_sale_commits fault now2 c1 pid qty2 _ Hok Hr1 Hq2 Hfit2) as H2.
  do 2 eexists. split; [exact H1|]. split; [exact H2|].
  cbn [session]. split.
  - rewrite product_with_id_after_sale, Hr1. cbn [option_map].
    rewrite has_id_set_col_stock.
    destruct (find_has_id_spec _ _ _ Hr) as [_ Hid].
    unfold has_id. rewrite Hid, Z.eqb_refl. reflexivity.
  - cbn. rewrite <- app_assoc. reflexivity.
Qed.



(** * Well-formed stores stay well-formed *)

Lemma map_col_id_update pid f l :
  map col_id (update_where_id pid f l) = map col_id l.
Proof.
  unfold update_where_id. rewrite map_map. apply map_ext.
  intros r. destruct (has_id pid r); reflexivity.
Qed.

Lemma existsb_has_id_ids x l :
  existsb (has_id x) l = existsb (fun i => i =? x) (map col_id l).
Proof. induction l as [|r l IH]; cbn; [reflexivity|]. now rewrite IH. Qed.

Lemma referential_integrity_same_ids l l' ss :
  map col_id l' = map col_id l ->
  referential_integrity (mkTables l ss) ->
  referential_integrity (mkTables l' ss).
Proof.
  unfold referential_integrity. cbn. intros E H.
  eapply Forall_impl; [|exact H]. cbn. intros s Hs.
  now rewrite existsb_has_id_ids, E, <- existsb_has_id_ids.
Qed.

Lemma NoDup_map_filter {A B} (f : A -> B) (p : A -> bool) l :
  NoDup (map f l) -> NoDup (map f (filter p l)).
Proof.
  induction l as [|a l IH]; cbn; [auto|]. intros H.
  inversion H as [|? ? Hnotin Hnd]; subst.
  destruct (p a); cbn; [|auto]. constructor; [|auto].
  intros Hin. apply Hnotin. apply in_map_iff in Hin.
  destruct Hin as (x & Hx & Hin). apply filter_In in Hin.
  apply in_map_iff. exists x. tauto.
Qed.

Lemma Forall_filter {A} (P : A -> Prop) (p : A -> bool) l :
  Forall P l -> Forall P (filter p l).
Proof.
  intros H. apply Forall_forall. intros x Hx. apply filter_In in Hx.
  rewrite Forall_forall in H. apply H. tauto.
Qed.

(** The state an UPDATE followed by a commit leaves, whatever the flag. *)
Lemma execute_update_commit_state fault s c pid f b c' :
  (rowcount <- execute_update fault s pid f ;;
   commit fault ;;;
   ret (0 <? rowcount)) c = (Return b, c') ->
  c' = (let t := mkTables (update_where_id pid f (products (session c)))
                          (sales (session c)) in
        mkConnection t t (products_auto_increment c) (sales_auto_increment c)).
Proof.
  cbv [bind ret server execute_update commit with_session].
  destruct (fault s); [discriminate|]. cbn.
  destruct (fault Commit); [discriminate|]. cbn.
  intros E. inversion E. reflexivity.
Qed.

Lemma update_keeps_well_formed c pid f :
  well_formed c ->
  well_formed (let t := mkTables (update_where_id pid f (products (session c)))
                                 (sales (session c)) in
               mkConnection t t (products_auto_increment c) (sales_auto_increment c)).
Proof.
  intros (Hclean & Hpk & Hfresh & Hri & Hkeys & Hbelow).
  unfold well_formed, clean, primary_key, auto_increment_fresh, sale_keys.
  cbn. rewrite map_col_id_update. repeat split; auto.
  - unfold update_where_id. apply Forall_map.
    eapply Forall_impl; [|exact Hfresh]. cbn. intros r Hr.
    destruct (has_id pid r); exact Hr.
  - apply referential_integrity_same_ids with (l := products (session c)).
    + apply map_col_id_update.
    + destruct (session c); exact Hri.
Qed.

(** X6. Each writing method that returns leaves a well-formed store
    well-formed: nothing uncommitted, product identifiers distinct
    and below their counter, every sale referencing an existing
    product, sale identifiers distinct and below their counter. *)
Theorem writers_keep_well_formed fault now c :
  well_formed c ->
  (forall p n c', add_product fault now p c = (Return n, c') -> well_formed c') /\
  (forall pid v b c', update_stock fault pid v c = (Return b, c') -> well_formed c') /\
  (forall pid v b c', set_stock fault pid v c = (Return b, c') -> well_formed c') /\
  (forall pid b c', delete_product fault pid c = (Return b, c') -> well_formed c').
Proof.
  intros Hwf. split; [|split; [|split]].
  - intros p n c' Hrun.
    destruct (add_product_keeps_primary_key fault now p c n c') as [Hpk' Hfresh'];
      try tauto; try apply Hwf.
    destruct Hwf as (_ & _ & _ & Hri & Hkeys & Hbelow).
    revert Hrun Hpk' Hfresh'.
    cbv [add_product bind ret server execute_insert_product commit].
    destruct (fault InsertProduct); [discriminate|]. cbn.
    destruct (fault Commit); [discriminate|]. cbn.
    intros E. inversion E; subst; clear E. intros Hpk' Hfresh'.
    unfold well_formed, clean, sale_keys. cbn. repeat split; auto.
    unfold referential_integrity in *. cbn.
    eapply Forall_impl; [|exact Hri]. cbn. intros s Hs.
    rewrite existsb_app, Hs. reflexivity.
  - intros pid v b c' Hrun.
    apply execute_update_commit_state in Hrun. subst c'.
    apply update_keeps_well_formed, Hwf.
  - intros pid v b c' Hrun.
    apply execute_update_commit_state in Hrun. subst c'.
    apply update_keeps_well_formed, Hwf.
  - intros pid b c'.
    destruct Hwf as (_ & Hpk & Hfresh & Hri & Hkeys & Hbelow).
    cbv [delete_product bind ret server execute_delete_product commit with_session].
    destruct (fault DeleteProduct); [discriminate|]. cbn.
    destruct (fault Commit); [discriminate|]. cbn.
    intros E. inversion E; subst; clear E.
    unfold well_formed, clean, primary_key, auto_increment_fresh, sale_keys. cbn.
    repeat split.
    + apply NoDup_map_filter, Hpk.
    + apply Forall_filter, Hfresh.
    + unfold referential_integrity in *. cbn.
      apply Forall_forall. intros s Hs. apply filter_In in Hs.
      destruct Hs as [Hin Hne]. rewrite Forall_forall in Hri.
      specialize (Hri s Hin). apply existsb_exists in Hri.
      destruct Hri as (r & Hr & Hid). apply existsb_exists. exists r.
      split; [|exact Hid]. apply filter_In. split; [exact Hr|].
      unfold has_id in *.
      destruct (Z.eqb_spec (product_id s) pid); [discriminate|].
      destruct (Z.eqb_spec (col_id r) pid); [lia | reflexivity].
    + apply NoDup_map_filter, Hkeys.
    + apply Forall_filter, Hbelow.
Qed.

(** X7. [record_sale] leaves a well-formed store well-formed whatever
    the identifier, the quantity and the statements the server
    refuses: in particular the new sale references an existing
    product and takes an identifier no earlier sale has. *)
Theorem record_sale_keeps_well_formed fault now c pid qty :
  well_formed c ->
  well_formed (snd (record_sale fault now pid qty c)).
Proof.
  intros (Hclean & Hpk & Hfresh & Hri & Hkeys & Hbelow).
  destruct (record_sale_outcomes fault now c pid qty Hclean)
    as (o & c' & Hrun & Hclean' & Hcounter &
        [(Hsame & Hle & _) | (r & Hr & _ & _ & _ & Hafter & Hnext)]);
    rewrite Hrun; cbn [snd];
    unfold well_formed, primary_key, auto_increment_fresh, sale_keys.
  - rewrite Hsame, Hcounter. repeat split; auto.
    eapply Forall_impl; [|exact Hbelow]. cbn. intros; lia.
  - rewrite Hafter, Hcounter, Hnext. cbn. rewrite map_col_id_update.
    repeat split; auto.
    + unfold update_where_id. apply Forall_map.
      eapply Forall_impl; [|exact Hfresh]. cbn. intros r' Hr'.
      destruct (has_id pid r'); exact Hr'.
    + apply referential_integrity_same_ids with (l := products (session c));
        [apply map_col_id_update|].
      unfold referential_integrity in *. cbn. apply Forall_app. split; [exact Hri|].
      constructor; [|constructor]. cbn.
      eapply find_existsb. exact Hr.
    + rewrite map_app. cbn.
      apply Permutation_NoDup with
        (l := sales_auto_increment c :: map sale_id (sales (session c))).
      * apply Permutation_cons_append.
      * constructor; [|exact Hkeys]. intros Hin. apply in_map_iff in Hin.
        destruct Hin as (s & Hid & Hs).
        rewrite Forall_forall in Hbelow. specialize (Hbelow s Hs). lia.
    + apply Forall_app. split.
      * eapply Forall_impl; [|exact Hbelow]. cbn. intros; lia.
      * constructor; [cbn; lia | constructor].
Qed.

(** * Stock updates and deletions in sequence *)

Lemma set_col_stock_same r : set_col_stock (col_stock r) r = r.
Proof. destruct r; reflexivity. Qed.

Lemma update_where_id_compose pid f g l :
  update_where_id pid g (update_where_id pid f l) =
  update_where_id pid (fun s => g (f s)) l.
Proof.
  unfold update_where_id. rewrite map_map. apply map_ext. intros r.
  destruct (has_id pid r) eqn:Hid; [|now rewrite Hid].
  rewrite has_id_set_col_stock, Hid. reflexivity.
Qed.

Lemma update_where_id_identity pid f l :
  (forall s, f s = s) -> update_where_id pid f l = l.
Proof.
  intros Hf. unfold update_where_id. rewrite <- (map_id l) at 2.
  apply map_ext. intros r. destruct (has_id pid r); [|reflexivity].
  rewrite Hf. apply set_col_stock_same.
Qed.

Lemma execute_update_commit_runs fault s c pid f :
  fault s = None ->
  fault Commit = None ->
  exists b,
    (rowcount <- execute_update fault s pid f ;;
     commit fault ;;;
     ret (0 <? rowcount)) c =
    (Return b,
     let t := mkTables (update_where_id pid f (products (session c)))
                       (sales (session c)) in
     mkConnection t t (products_auto_increment c) (sales_auto_increment c)).
Proof.
  intros Hs Hc. cbv [bind ret server execute_update commit with_session].
  rewrite Hs. cbn. rewrite Hc. cbn. eexists. reflexivity.
Qed.

(** X8. [update_stock] composes: adding [a] and then [b] leaves the
    tables that adding [a + b] at once leaves; in particular adding
    [a] and then [-a] gives back exactly the tables there were.  The
    [sales] table is never touched. *)
Theorem update_stock_composes fault c pid a b :
  fault UpdateStockAdd = None ->
  fault Commit = None ->
  exists ok1 ok2 ok c1 c2 c12,
    update_stock fault pid a c = (Return ok1, c1) /\
    update_stock fault pid b c1 = (Return ok2, c2) /\
    update_stock fault pid (a + b) c = (Return ok, c12) /\
    session c2 = session c12 /\
    sales (session c2) = sales (session c) /\
    (b = - a -> session c2 = session c).
Proof.
  intros Ha Hc.
  destruct (execute_update_commit_runs fault UpdateStockAdd c pid
              (fun s => s + a) Ha Hc) as [ok1 H1].
  set (c1 := mkConnection
               (mkTables (update_where_id pid (fun s => s + a) (products (session c)))
                         (sales (session c)))
               (mkTables (update_where_id pid (fun s => s + a) (products (session c)))
                         (sales (session c)))
               (products_auto_increment c) (sales_auto_increment c)) in *.
  destruct (execute_update_commit_runs fault UpdateStockAdd c1 pid
              (fun s => s + b) Ha Hc) as [ok2 H2].
  destruct (execute_update_commit_runs fault UpdateStockAdd c pid
              (fun s => s + (a + b)) Ha Hc) as [ok H12].
  do 6 eexists. split; [exact H1|]. split; [exact H2|]. split; [exact H12|].
  cbn [session products sales c1]. rewrite update_where_id_compose. repeat split.
  - f_equal. unfold update_where_id. apply map_ext. intros r.
    destruct (has_id pid r); [|reflexivity]. f_equal. lia.
  - intros ->. rewrite update_where_id_identity by (intros; lia).
    destruct (session c); reflexivity.
Qed.

(** X9. [set_stock] followed by [get_product_by_id]: the product read
    back has the stock just written and every other field as before.
    A second [set_stock] of the same value changes nothing and
    returns False, the first having left nothing to change. *)
Theorem set_stock_then_read fault c pid v r :
  fault UpdateStockSet = None ->
  fault Commit = None ->
  fault SelectProductById = None ->
  primary_key (session c) ->
  product_with_id pid (session c) = Some r ->
  exists ok c1,
    set_stock fault pid v c = (Return ok, c1) /\
    get_product_by_id fault pid c1 =
      (Return (Some (mkProduct (Some pid) (col_name r) (col_category r)
                               (col_price r) v
                               (Some (str_datetime (col_added_date r))))), c1) /\
    set_stock fault pid v c1 = (Return false, c1).
Proof.
  intros Hs Hc Hg Hpk Hr.
  pose proof (execute_update_commit fault UpdateStockSet c pid (fun _ => v)
                Hs Hc Hpk) as H1.
  set (c1 := mkConnection
               (mkTables (update_where_id pid (fun _ => v) (products (session c)))
                         (sales (session c)))
               (mkTables (update_where_id pid (fun _ => v) (products (session c)))
                         (sales (session c)))
               (products_auto_increment c) (sales_auto_increment c)) in *.
  assert (Hr1 : product_with_id pid (session c1) = Some (set_col_stock v r)).
  { unfold product_with_id in *. cbn. rewrite find_update_where_id, Hr. cbn.
    destruct (find_has_id_spec _ _ _ Hr) as [_ Hid].
    unfold has_id. rewrite Hid, Z.eqb_refl. reflexivity. }
  assert (Hpk1 : primary_key (session c1)).
  { unfold primary_key. cbn. rewrite map_col_id_update. exact Hpk. }
  do 2 eexists. split; [exact H1|]. split.
  - cbv [get_product_by_id bind ret query server execute_select_product_by_id].
    rewrite Hg, Hr1. cbn.
    destruct (find_has_id_spec _ _ _ Hr) as [_ Hid].
    unfold product_of_row. cbn. rewrite Hid. reflexivity.
  - pose proof (execute_update_commit fault UpdateStockSet c1 pid (fun _ => v)
                  Hs Hc Hpk1) as H2.
    unfold set_stock. rewrite H2. unfold stock_changes. rewrite Hr1.
    cbn [set_col_stock col_stock]. rewrite Z.eqb_refl. cbn [negb].
    f_equal. cbn [session c1 products sales].
    rewrite update_where_id_compose.
    unfold c1. reflexivity.
Qed.

(** X10. Deleting twice: once [delete_product] has returned, a second
    call for the same identifier returns False and leaves both tables
    as the first call left them. *)
Theorem delete_product_twice fault c pid ok c1 :
  delete_product fault pid c = (Return ok, c1) ->
  delete_product fault pid c1 = (Return false, c1).
Proof.
  cbv [delete_product bind ret server execute_delete_product commit with_session].
  destruct (fault DeleteProduct) eqn:Hd; [discriminate|]. cbn.
  destruct (fault Commit) eqn:Hc; [discriminate|]. cbn.
  intros E. inversion E; subst; clear E. cbn.
  assert (Hp : forall l : list product_row,
             filter (has_id pid) (filter (fun r => negb (has_id pid r)) l) = []).
  { induction l as [|r l IH]; cbn; [reflexivity|].
    destruct (has_id pid r) eqn:Hid; cbn; [exact IH|]. rewrite Hid. exact IH. }
  assert (Hidem : forall {A} (p : A -> bool) (l : list A),
             filter p (filter p l) = filter p l).
  { intros A p l. induction l as [|a l IH]; cbn; [reflexivity|].
    destruct (p a) eqn:Hpa; cbn; [rewrite Hpa, IH; reflexivity | exact IH]. }
  rewrite Hp, !Hidem. reflexivity.
Qed.

(** X11. On a store whose sales all reference existing products,
    deleting an identifier no product has returns False and leaves
    both tables untouched. *)
Theorem delete_product_absent fault c pid :
  fault DeleteProduct = None ->
  fault Commit = None ->
  referential_integrity (session c) ->
  product_with_id pid (session c) = None ->
  exists c',
    delete_product fault pid c = (Return false, c') /\
    session c' = session c /\ durable c' = session c.
Proof.
  intros Hd Hc Hri Hn.
  cbv [delete_product bind ret server execute_delete_product commit with_session].
  rewrite Hd. cbn. rewrite Hc. cbn. unfold product_with_id in Hn.
  assert (Hsales : filter (fun s => negb (product_id s =? pid)) (sales (session c))
                   = sales (session c)).
  { unfold referential_integrity in Hri.
    induction Hri as [|s l Hs _ IH]; cbn; [reflexivity|].
    destruct (Z.eqb_spec (product_id s) pid) as [E|_]; cbn; [|now rewrite IH].
    exfalso. apply existsb_exists in Hs. destruct Hs as (r & Hr & Hid).
    rewrite E in Hid. rewrite (find_none _ _ Hn r Hr) in Hid. discriminate. }
  assert (Hcount : filter (has_id pid) (products (session c)) = []).
  { clear -Hn. induction (products (session c)) as [|r l IH]; cbn in *; [reflexivity|].
    destruct (has_id pid r); [discriminate | auto]. }
  eexists. split.
  - rewrite Hcount. reflexivity.
  - cbn. rewrite Hsales, (filter_out_absent _ _ Hn).
    destruct (session c); auto.
Qed.

(** * The reading methods *)


Lemma insert_by_before_last {A} (key : A -> Z) x s r :
  key x <= key r ->
  insert_by key x (s ++ [r]) = (insert_by key x s ++ [r])%list.
Proof.
  intros Hle. induction s as [|y s IH]; cbn.
  - destruct (Z.leb_spec (key x) (key r)); [reflexivity | lia].
  - destruct (key x <=? key y); [reflexivity|]. cbn. now rewrite IH.
Qed.

Lemma order_by_append_last {A} (key : A -> Z) l r :
  Forall (fun x => key x <= key r) l ->
  order_by key (l ++ [r]) = (order_by key l ++ [r])%list.
Proof.
  induction 1 as [|x l Hx _ IH]; cbn; [reflexivity|].
  unfold order_by in IH. rewrite IH. apply insert_by_before_last. exact Hx.
Qed.

(** X13. [add_product] followed by [get_products]: the list is the
    list there was before, with the new product at its end, carrying
    the returned identifier and the fields given. *)
Theorem add_product_then_get_products fault now c p :
  fault InsertProduct = None ->
  fault Commit = None ->
  fault SelectProducts = None ->
  auto_increment_fresh c ->
  exists c' before,
    add_product fault now p c = (Return (products_auto_increment c), c') /\
    get_products fault c = (Return before, c) /\
    get_products fault c' =
      (Return (before ++
               [mkProduct (Some (products_auto_increment c)) (name p)
                          (Some (or_empty (category p))) (price p) (stock p)
                          (Some now)])%list, c').
Proof.
  intros Hi Hc Hs Hfresh.
  cbv [add_product get_products bind ret query server execute_insert_product
       execute_select_products commit].
  rewrite Hi, Hs. cbn. rewrite Hc. do 2 eexists. split; [reflexivity|].
  split; [reflexivity|]. cbn [session products].
  rewrite order_by_append_last.
  - rewrite map_app. reflexivity.
  - eapply Forall_impl; [|exact Hfresh]. cbn. intros; lia.
Qed.

(** X14. [low_stock] grows with its threshold: every product listed
    for a threshold is listed for any larger one. *)
Theorem low_stock_monotone fault c t1 t2 :
  fault SelectLowStock = None ->
  t1 <= t2 ->
  exists ps1 ps2,
    low_stock fault t1 c = (Return ps1, c) /\
    low_stock fault t2 c = (Return ps2, c) /\
    incl ps1 ps2.
Proof.
  intros Hf Hle. cbv [low_stock bind ret query server execute_select_low_stock].
  rewrite Hf. do 2 eexists. split; [reflexivity|]. split; [reflexivity|].
  intros p Hp. apply in_map_iff in Hp. destruct Hp as (r & <- & Hr).
  apply in_map.
  apply (Permutation_in _ (order_by_perm col_stock _)) in Hr.
  apply (Permutation_in _ (Permutation_sym (order_by_perm col_stock _))).
  apply filter_In in Hr. apply filter_In. destruct Hr as [Hin Hlt].
  split; [exact Hin|]. apply Z.ltb_lt in Hlt. apply Z.ltb_lt. lia.
Qed.

(** X15. [get_total_inventory_value] on a store without products
    returns [0.0] and raises nothing; and whatever the store, a sum
    that is zero of either sign is returned as [0.0]. *)
Theorem inventory_value_of_nothing fault c :
  fault SelectInventoryValue = None ->
  exists v,
    get_total_inventory_value fault c = (Return v, c) /\
    (products (session c) = [] -> v = PrimFloat.zero) /\
    (PrimFloat.is_zero v = true -> v = PrimFloat.zero).
Proof.
  intros Hf.
  cbv [get_total_inventory_value bind ret query server
       execute_select_inventory_value].
  rewrite Hf. eexists. split; [reflexivity|]. split.
  - intros ->. reflexivity.
  - unfold float_or_zero, float_truthy.
    destruct (sql_sum (inventory_terms (products (session c)))) as [x|];
      [|reflexivity].
    destruct (PrimFloat.is_zero x) eqn:Hz; cbn [negb]; [reflexivity|].
    intros H. congruence.
Qed.

(** * The sales report *)

Lemma day_eqb_eq a b : day_eqb a b = true <-> a = b.
Proof.
  destruct a as [x|], b as [y|]; cbn; try (split; congruence).
  rewrite String.eqb_eq. split; congruence.
Qed.

Lemma day_eqb_neq a b : day_eqb a b = false <-> a <> b.
Proof.
  rewrite <- day_eqb_eq. destruct (day_eqb a b); split; congruence.
Qed.


Lemma sql_sum_snoc l x :
  sql_sum (l ++ [x]) =
  Some (match sql_sum l with Some v => PrimFloat.add v x | None => x end).
Proof.
  destruct l as [|v l]; cbn; [reflexivity|].
  rewrite fold_left_app. reflexivity.
Qed.

Lemma day_totals_snoc d l s :
  day_totals d (l ++ [s]) =
  (day_totals d l ++ if day_eqb (sale_day s) d then [total_price s] else [])%list.
Proof.
  unfold day_totals. rewrite filter_app, map_app. cbn.
  destruct (day_eqb (sale_day s) d); reflexivity.
Qed.

Lemma group_by_day_snoc l s :
  group_by_day (l ++ [s]) =
  add_to_group (sale_day s) (total_price s) (group_by_day l).
Proof. unfold group_by_day. rewrite fold_left_app. reflexivity. Qed.

Lemma add_to_group_keys d v g x :
  In x (map fst (add_to_group d v g)) <-> x = d \/ In x (map fst g).
Proof.
  induction g as [|[d' s] g IH]; cbn.
  - intuition congruence.
  - destruct (day_eqb d' d) eqn:E; cbn.
    + apply day_eqb_eq in E. subst d'. intuition congruence.
    + rewrite IH. intuition congruence.
Qed.

Lemma add_to_group_NoDup d v g :
  NoDup (map fst g) -> NoDup (map fst (add_to_group d v g)).
Proof.
  induction g as [|[d' s] g IH]; cbn; intros H.
  - constructor; [intros [] | constructor].
  - inversion H as [|? ? Hnotin Hnd]; subst.
    destruct (day_eqb d' d) eqn:E; cbn.
    + constructor; assumption.
    + constructor; [|auto]. rewrite add_to_group_keys.
      apply day_eqb_neq in E. intuition congruence.
Qed.

Lemma add_to_group_entry d v g x y :
  NoDup (map fst g) ->
  In (x, y) (add_to_group d v g) ->
  (x <> d /\ In (x, y) g) \/
  (x = d /\ ((exists s, In (d, s) g /\ y = PrimFloat.add s v) \/
             (~ In d (map fst g) /\ y = v))).
Proof.
  induction g as [|[d' s] g IH]; cbn; intros Hnd Hin.
  - destruct Hin as [E|[]]. injection E as <- <-. right. split; [reflexivity|].
    right. split; [tauto | reflexivity].
  - inversion Hnd as [|? ? Hnotin Hnd']; subst.
    destruct (day_eqb d' d) eqn:E.
    + apply day_eqb_eq in E. subst d'. destruct Hin as [E|Hin].
      * injection E as <- <-. right. split; [reflexivity|]. left. eauto.
      * left. split; [|auto]. intros ->. apply Hnotin.
        apply in_map_iff. exists (d, y). auto.
    + apply day_eqb_neq in E. destruct Hin as [E'|Hin].
      * injection E' as <- <-. left. auto.
      * destruct (IH Hnd' Hin) as [[Hne Hg] | [-> [(s0 & Hs0 & ->) | [Hno ->]]]].
        -- left. auto.
        -- right. split; [reflexivity|]. left. eauto.
        -- right. split; [reflexivity|]. right. split; [|reflexivity].
           intros [E'|Hd]; [congruence | contradiction].
Qed.

(** The running sums of [group_by_day] against the sums per day. *)
Lemma group_by_day_spec l :
  NoDup (map fst (group_by_day l)) /\
  (forall d, In d (map fst (group_by_day l)) <->
             exists s, In s l /\ sale_day s = d) /\
  (forall d v, In (d, v) (group_by_day l) -> sql_sum (day_totals d l) = Some v).
Proof.
  induction l as [|s l IH] using rev_ind.
  - cbn. split; [constructor|]. split; [|contradiction].
    intros d. split; [contradiction | intros (s & [] & _)].
  - destruct IH as (Hnd & Hkeys & Hsums). rewrite group_by_day_snoc.
    split; [apply add_to_group_NoDup, Hnd|]. split.
    + intros d. rewrite add_to_group_keys, Hkeys. split.
      * intros [-> | (s' & Hs' & Hd)].
        -- exists s. split; [apply in_or_app; right; left; reflexivity | reflexivity].
        -- exists s'. split; [apply in_or_app; left; exact Hs' | exact Hd].
      * intros (s' & Hs' & Hd). apply in_app_or in Hs'.
        destruct Hs' as [Hs' | [<- | []]]; [right; eauto | left; congruence].
    + intros d v Hin. rewrite day_totals_snoc.
      destruct (add_to_group_entry _ _ _ _ _ Hnd Hin)
        as [[Hne Hg] | [-> [(s0 & Hs0 & ->) | [Hno ->]]]].
      * assert (E : day_eqb (sale_day s) d = false)
          by (apply day_eqb_neq; congruence).
        rewrite E, app_nil_r. apply Hsums, Hg.
      * assert (E : day_eqb (sale_day s) (sale_day s) = true)
          by (apply day_eqb_eq; reflexivity).
        rewrite E, sql_sum_snoc, (Hsums _ _ Hs0). reflexivity.
      * assert (E : day_eqb (sale_day s) (sale_day s) = true)
          by (apply day_eqb_eq; reflexivity).
        rewrite E, sql_sum_snoc.
        assert (Hempty : day_totals (sale_day s) l = []).
        { unfold day_totals.
          destruct (filter (fun s' => day_eqb (sale_day s') (sale_day s)) l)
            as [|s' f] eqn:Hf; [reflexivity|].
          exfalso. apply Hno. apply Hkeys. exists s'.
          assert (Hs' : In s' (filter (fun s' => day_eqb (sale_day s') (sale_day s)) l))
            by (rewrite Hf; left; reflexivity).
          apply filter_In in Hs'. destruct Hs' as [Hin' E'].
          apply day_eqb_eq in E'. auto. }
        rewrite Hempty. reflexivity.
Qed.

Section OrderLebFacts.
Context {A K : Type} (key : A -> K) (leb : K -> K -> bool).
Hypothesis leb_total : forall a b, leb a b = true \/ leb b a = true.

Lemma insert_leb_perm x l : Permutation (insert_leb key leb x l) (x :: l).
Proof.
  induction l as [|y l IH]; cbn; [reflexivity|].
  destruct (leb (key x) (key y)); [reflexivity|].
  rewrite IH. apply perm_swap.
Qed.

Lemma order_leb_perm l : Permutation (order_leb key leb l) l.
Proof.
  induction l as [|x l IH]; cbn; [constructor|].
  rewrite insert_leb_perm. now constructor.
Qed.



End OrderLebFacts.

(** X16. The sales report has exactly one bucket for each day on
    which a sale exists, and the total of a bucket is the DOUBLE sum
    of the [total_price] of the sales of that day, added in table
    order; without sales the report is empty. *)
Theorem sales_report_buckets c :
  exists rows,
    get_sales_report None c =
      (Return (map (fun r => (str_date (fst r), snd r)) rows), c) /\
    NoDup (map fst rows) /\
    (forall d, In d (map fst rows) <->
               exists s, In s (sales (session c)) /\ sale_day s = d) /\
    (forall d v, In (d, v) rows ->
                 sql_sum (day_totals d (sales (session c))) = Some v) /\
    (sales (session c) = [] -> rows = []).
Proof.
  eexists. split; [reflexivity|].
  destruct (group_by_day_spec (sales (session c))) as (Hnd & Hkeys & Hsums).
  pose proof (order_leb_perm (@fst (option string) double) day_leb
                (group_by_day (sales (session c)))) as Hperm.
  repeat split.
  - eapply Permutation_NoDup; [|exact Hnd].
    apply Permutation_map. symmetry. exact Hperm.
  - intros Hin. apply Hkeys.
    eapply Permutation_in; [apply Permutation_map; exact Hperm | exact Hin].
  - intros Hex. apply Hkeys in Hex.
    eapply Permutation_in; [apply Permutation_map; symmetry; exact Hperm | exact Hex].
  - intros d v Hin. apply Hsums.
    eapply Permutation_in; [exact Hperm | exact Hin].
  - intros ->. reflexivity.
Qed.


(** X18. The first sale of a store: after a successful [record_sale],
    of a quantity within the stock that converts to a float, on a
    store without sales, the report is the single bucket of the day
    of the sale, with total [price * qty]. *)
Theorem first_sale_report fault now c pid qty r :
  sale_statements_succeed fault ->
  product_with_id pid (session c) = Some r ->
  qty <= col_stock r ->
  float_fits qty = true ->
  sales (session c) = [] ->
  exists c',
    record_sale fault now pid qty c =
      (Return (true, Some (PrimFloat.mul (col_price r) (float_of_int qty)),
               "Sale recorded"), c') /\
    get_sales_report None c' =
      (Return [(substring 0 10 now,
                PrimFloat.mul (col_price r) (float_of_int qty))], c').
Proof.
  intros Hok Hr Hle Hfit Hnone. eexists. split.
  { apply record_sale_commits; eassumption. }
  cbv [get_sales_report bind ret execute_select_sales_report].
  cbn [session tables_after_sale sales]. rewrite Hnone. reflexivity.
Qed.

(** * The pages *)

Lemma find_named_rows chosen (rows : list product_row) :
  find (fun p => String.eqb (name p) chosen) (map product_of_row_list rows) =
  option_map product_of_row_list
             (find (fun r => String.eqb (col_name r) chosen) rows).
Proof.
  induction rows as [|r rows IH]; cbn [map find]; [reflexivity|].
  change (name (product_of_row_list r)) with (col_name r).
  destruct (String.eqb (col_name r) chosen); [reflexivity | exact IH].
Qed.

Lemma find_first_sorted {A} (R : A -> A -> Prop) (p : A -> bool) l r :
  StronglySorted R l ->
  find p l = Some r ->
  In r l /\ p r = true /\ forall x, In x l -> p x = true -> x = r \/ R r x.
Proof.
  induction 1 as [|a l Hs IH Hall]; cbn; [discriminate|].
  destruct (p a) eqn:Hpa.
  - intros E. injection E as <-. repeat split; auto.
    intros x [<- | Hx] _; [auto|]. right.
    rewrite Forall_forall in Hall. auto.
  - intros Hf. destruct (IH Hf) as (Hin & Hpr & Hmin). repeat split; auto.
    intros x [<- | Hx] Hpx; [congruence | auto].
Qed.

(** What the chosen name selects. *)
Lemma selected_row_spec chosen t r :
  selected_row chosen t = Some r ->
  In r (products t) /\ col_name r = chosen /\
  forall r', In r' (products t) -> col_name r' = chosen -> col_id r <= col_id r'.
Proof.
  unfold selected_row. intros Hsel.
  destruct (find_first_sorted _ _ _ _ (order_by_sorted col_id (products t)) Hsel)
    as (Hin & Hname & Hmin).
  pose proof (order_by_perm col_id (products t)) as Hperm.
  apply String.eqb_eq in Hname. repeat split; auto.
  - eapply Permutation_in; eassumption.
  - intros r' Hr' Hn'.
    destruct (Hmin r') as [-> | Hle].
    + eapply Permutation_in; [symmetry|]; eassumption.
    + apply String.eqb_eq. exact Hn'.
    + lia.
    + exact Hle.
Qed.

(** The first lines of a page that acts on the chosen product. *)
Lemma page_selection fault c chosen r :
  fault SelectProducts = None ->
  selected_row chosen (session c) = Some r ->
  exists p ps,
    get_products fault c = (Return (p :: ps), c) /\
    next_named chosen (p :: ps) c = (Return (product_of_row_list r), c) /\
    id_of (product_of_row_list r) c = (Return (col_id r), c).
Proof.
  intros Hf Hsel. unfold selected_row in Hsel.
  cbv [get_products bind ret query server execute_select_products].
  rewrite Hf. cbn [session].
  destruct (order_by col_id (products (session c))) as [|r0 rows] eqn:Hrows;
    [discriminate|].
  exists (product_of_row_list r0), (map product_of_row_list rows).
  split; [reflexivity|]. split; [|reflexivity].
  unfold next_named.
  change (product_of_row_list r0 :: map product_of_row_list rows)
    with (map product_of_row_list (r0 :: rows)).
  rewrite find_named_rows, Hsel. reflexivity.
Qed.

Lemma selected_row_lookup chosen t r :
  primary_key t ->
  selected_row chosen t = Some r ->
  product_with_id (col_id r) t = Some r.
Proof.
  intros Hpk Hsel. destruct (selected_row_spec _ _ _ Hsel) as (Hin & _).
  apply find_unique_id; auto.
Qed.

(** With the cursor obtained and the rollback going through, a call
    of [record_sale] ends in one of two shapes. *)
Lemma record_sale_returns fault now c pid qty :
  fault Cursor = None ->
  fault Rollback = None ->
  exists c',
    (exists msg, record_sale fault now pid qty c = (Return (false, None, msg), c')) \/
    (exists total msg,
        record_sale fault now pid qty c = (Return (true, Some total, msg), c')).
Proof.
  intros Hk Hrb. run_sale. rewrite Hk, Hrb.
  destruct (fault SelectPriceStock); [eexists; left; eexists; reflexivity|].
  cbn [session].
  destruct (product_with_id pid (session c)) as [r|]; cbn [option_map];
    [|eexists; left; eexists; reflexivity].
  destruct (col_stock r <? qty); [eexists; left; eexists; reflexivity|].
  destruct (float_fits qty); [|eexists; left; eexists; reflexivity].
  destruct (fault InsertSale); [eexists; left; eexists; reflexivity|].
  destruct (existsb (has_id pid) (products (session c)));
    [|eexists; left; eexists; reflexivity].
  destruct (fault UpdateStockSub); [eexists; left; eexists; reflexivity|]. cbn.
  destruct (fault Commit); [eexists; left; eexists; reflexivity|].
  eexists. right. do 2 eexists. reflexivity.
Qed.

(** The bounds of a number input. *)
Lemma number_input_within lo hi v held c :
  lo <= v -> lo <= held ->
  match hi with Some h => v <= h /\ held <= h | None => True end ->
  number_input lo hi v held c = (Return held, c).
Proof.
  intros Hv Hh Hhi. unfold number_input.
  destruct (Z.ltb_spec v lo); [lia|]. destruct (Z.ltb_spec held lo); [lia|].
  destruct hi as [h|]; [|reflexivity].
  destruct (Z.ltb_spec h v); [lia|]. destruct (Z.ltb_spec h held); [lia|].
  reflexivity.
Qed.

Lemma number_input_cases lo hi v held c :
  (exists n, number_input lo hi v held c = (Return n, c)) \/
  (exists e, number_input lo hi v held c = (Raise e, c)).
Proof.
  unfold number_input.
  destruct ((v <? lo) || match hi with Some h => h <? v | None => false end);
    [right; eexists; reflexivity|].
  destruct ((held <? lo) || match hi with Some h => h <? held | None => false end);
    [right | left]; eexists; reflexivity.
Qed.

Lemma number_input_raises lo hi v held c :
  v < lo \/ (exists h, hi = Some h /\ h < v) ->
  exists e, number_input lo hi v held c = (Raise e, c).
Proof.
  intros Hout. unfold number_input.
  destruct (Z.ltb_spec v lo); [eexists; reflexivity|].
  destruct Hout as [Hlt | (h & -> & Hlt)]; [lia|].
  destruct (Z.ltb_spec h v); [eexists; reflexivity | lia].
Qed.

(** X19. "Delete Product" acts on the product of the chosen name with
    the lowest identifier, and on it alone: afterwards exactly the
    rows of that identifier are gone from [products], exactly the
    sales referencing it are gone from [sales], and the page shows
    ["Deleted."]. *)
Theorem delete_product_page_first_of_name fault c chosen r :
  fault SelectProducts = None ->
  fault DeleteProduct = None ->
  fault Commit = None ->
  selected_row chosen (session c) = Some r ->
  exists c',
    delete_product_page fault chosen c = (Return [st_success "Deleted."], c') /\
    col_name r = chosen /\
    (forall r', In r' (products (session c)) -> col_name r' = chosen ->
                col_id r <= col_id r') /\
    (forall r', In r' (products (session c')) <->
                In r' (products (session c)) /\ col_id r' <> col_id r) /\
    (forall s, In s (sales (session c')) <->
               In s (sales (session c)) /\ product_id s <> col_id r).
Proof.
  intros Hf Hd Hc Hsel.
  destruct (page_selection fault c chosen r Hf Hsel) as (p & ps & Hg & Hn & Hi).
  destruct (selected_row_spec _ _ _ Hsel) as (_ & Hname & Hmin).
  unfold delete_product_page, bind at 1. rewrite Hg.
  unfold bind at 1. rewrite Hn. unfold bind at 1. rewrite Hi.
  cbv [delete_product bind ret server execute_delete_product commit with_session].
  rewrite Hd. cbn. rewrite Hc. eexists. split; [reflexivity|].
  cbn [session products sales]. repeat split; auto.
  - apply filter_In in H. tauto.
  - apply filter_In in H. destruct H as [_ H]. unfold has_id in H.
    destruct (Z.eqb_spec (col_id r') (col_id r)); [discriminate | assumption].
  - intros [Hin Hne]. apply filter_In. split; [assumption|].
    unfold has_id. destruct (Z.eqb_spec (col_id r') (col_id r));
      [contradiction | reflexivity].
  - apply filter_In in H. tauto.
  - apply filter_In in H. destruct H as [_ H].
    destruct (Z.eqb_spec (product_id s) (col_id r)); [discriminate | assumption].
  - intros [Hin Hne]. apply filter_In. split; [assumption|].
    destruct (Z.eqb_spec (product_id s) (col_id r)); [contradiction | reflexivity].
Qed.

(** X20. "Record Sale" with a quantity within the bounds of its number
    input, [1 <= qty <= stock] of the chosen product as the page has
    just listed it: the sale succeeds, the page shows the success
    message with the total [price * qty] to two decimals, never an
    error, and the stock of that product goes down by [qty]. *)
Theorem record_sale_page_within_bounds fault now c chosen qty r :
  fault SelectProducts = None ->
  sale_statements_succeed fault ->
  primary_key (session c) ->
  selected_row chosen (session c) = Some r ->
  1 <= qty <= col_stock r ->
  float_fits qty = true ->
  exists c',
    record_sale_page fault now chosen qty c =
      (Return [st_success
                 ("Sale OK! Total ₹" ++
                  format_2f (PrimFloat.mul (col_price r) (float_of_int qty)))%string],
       c') /\
    product_with_id (col_id r) (session c') =
      Some (set_col_stock (col_stock r - qty) r).
Proof.
  intros Hf Hok Hpk Hsel Hq Hfit.
  destruct (page_selection fault c chosen r Hf Hsel) as (p & ps & Hg & Hn & Hi).
  pose proof (selected_row_lookup _ _ _ Hpk Hsel) as Hr.
  unfold record_sale_page, bind at 1. rewrite Hg.
  unfold bind at 1. rewrite Hn. unfold bind at 1.
  change (stock (product_of_row_list r)) with (col_stock r).
  rewrite number_input_within by (cbn; lia).
  unfold bind at 1. rewrite Hi. unfold bind at 1.
  rewrite (record_sale_commits fault now c (col_id r) qty r Hok Hr
             (proj2 Hq) Hfit).
  eexists. split; [reflexivity|]. cbn [session].
  rewrite product_with_id_after_sale, Hr. cbn.
  unfold has_id. rewrite Z.eqb_refl. reflexivity.
Qed.

(** X21. "Record Sale" for a listed product.  If its stock is below 1
    the page raises at the quantity input (bounds 1 to stock), before
    anything is sold.  Otherwise, for a quantity within the bounds and
    with the cursor obtained and the rollback going through, it shows
    one element whatever statement of [record_sale] the server
    refuses: the success message with the returned total, or the
    error message that [record_sale] returned. *)
Theorem record_sale_page_shows_result fault now c chosen qty r :
  fault SelectProducts = None ->
  selected_row chosen (session c) = Some r ->
  (col_stock r < 1 ->
   exists e, record_sale_page fault now chosen qty c = (Raise e, c)) /\
  (1 <= qty <= col_stock r ->
   fault Cursor = None ->
   fault Rollback = None ->
   exists c',
     (exists msg,
         record_sale fault now (col_id r) qty c = (Return (false, None, msg), c') /\
         record_sale_page fault now chosen qty c =
           (Return [st_error msg], c')) \/
     (exists total msg,
         record_sale fault now (col_id r) qty c = (Return (true, Some total, msg), c') /\
         record_sale_page fault now chosen qty c =
           (Return [st_success ("Sale OK! Total ₹" ++ format_2f total)%string], c'))).
Proof.
  intros Hf Hsel.
  destruct (page_selection fault c chosen r Hf Hsel) as (p & ps & Hg & Hn & Hi).
  split.
  - intros Hlow.
    destruct (number_input_raises 1 (Some (col_stock r)) 1 qty c) as [e He].
    { right. exists (col_stock r). split; [reflexivity | lia]. }
    exists e. unfold record_sale_page, bind at 1. rewrite Hg.
    unfold bind at 1. rewrite Hn. unfold bind at 1.
    change (stock (product_of_row_list r)) with (col_stock r).
    rewrite He. reflexivity.
  - intros Hq Hk Hrb.
    assert (Hpage : record_sale_page fault now chosen qty c =
                    match record_sale fault now (col_id r) qty c with
                    | (Return (true, Some total, _), c') =>
                        (Return [st_success
                                   ("Sale OK! Total ₹" ++ format_2f total)%string], c')
                    | (Return (true, None, _), c') =>
                        (Raise "unsupported format string passed to NoneType.__format__",
                         c')
                    | (Return (false, _, msg), c') => (Return [st_error msg], c')
                    | (Raise e, c') => (Raise e, c')
                    end).
    { unfold record_sale_page, bind at 1. rewrite Hg.
      unfold bind at 1. rewrite Hn. unfold bind at 1.
      change (stock (product_of_row_list r)) with (col_stock r).
      rewrite number_input_within by (cbn; lia).
      unfold bind at 1. rewrite Hi. unfold bind at 1.
      destruct (record_sale fault now (col_id r) qty c) as [[[[[|] [t|]] m]|e] c'];
        reflexivity. }
    destruct (record_sale_returns fault now c (col_id r) qty Hk Hrb)
      as (c' & [(msg & Hrun) | (total & msg & Hrun)]); exists c'.
    + left. exists msg. split; [exact Hrun|]. rewrite Hpage, Hrun. reflexivity.
    + right. exists total, msg. split; [exact Hrun|]. rewrite Hpage, Hrun. reflexivity.
Qed.

Lemma update_where_id_identity_on pid f l :
  (forall r, In r l -> has_id pid r = true -> f (col_stock r) = col_stock r) ->
  update_where_id pid f l = l.
Proof.
  intros Hf. unfold update_where_id. rewrite <- (map_id l) at 2.
  apply map_ext_in. intros r Hr. destruct (has_id pid r) eqn:Hid; [|reflexivity].
  rewrite (Hf r Hr Hid). apply set_col_stock_same.
Qed.

(** X22. "Update Stock" for a listed product.  If its stock is
    negative the page raises at the "Set Stock To" input (minimum 0,
    initial value the stock) and changes nothing.  Otherwise, for
    numbers within the bounds of the two inputs: a positive "Add
    Quantity" adds to the stock and "Set Stock To" is ignored, and
    else the stock becomes the "Set Stock To" value.  The page shows
    the stock it listed and then a success message, whatever the flag
    of the method; with the inputs left at their initial values (add
    0, set to the current stock) the tables do not change. *)
Theorem update_stock_page_effect fault c chosen add set_val r :
  fault SelectProducts = None ->
  fault UpdateStockAdd = None ->
  fault UpdateStockSet = None ->
  fault Commit = None ->
  primary_key (session c) ->
  selected_row chosen (session c) = Some r ->
  (col_stock r < 0 ->
   exists e, update_stock_page fault chosen add set_val c = (Raise e, c)) /\
  (0 <= col_stock r -> 0 <= add -> 0 <= set_val ->
   exists c',
     update_stock_page fault chosen add set_val c =
       (Return [st_write ("Current stock: " ++ str_int (col_stock r))%string;
                st_success (if 0 <? add then "Stock increased."
                            else "Stock updated.")], c') /\
     product_with_id (col_id r) (session c') =
       Some (set_col_stock (if 0 <? add then col_stock r + add else set_val) r) /\
     sales (session c') = sales (session c) /\
     (add = 0 -> set_val = col_stock r -> session c' = session c)).
Proof.
  intros Hf Ha Hs Hc Hpk Hsel.
  destruct (page_selection fault c chosen r Hf Hsel) as (p & ps & Hg & Hn & Hi).
  pose proof (selected_row_lookup _ _ _ Hpk Hsel) as Hr.
  assert (Hfind : forall f,
    product_with_id (col_id r)
      (mkTables (update_where_id (col_id r) f (products (session c)))
                (sales (session c))) =
    Some (set_col_stock (f (col_stock r)) r)).
  { intros f. unfold product_with_id in *. cbn.
    rewrite find_update_where_id, Hr. cbn.
    unfold has_id. rewrite Z.eqb_refl. reflexivity. }
  split.
  - intros Hneg.
    destruct (number_input_raises 0 None (col_stock r) set_val c) as [e He];
      [left; lia|].
    unfold update_stock_page, bind at 1. rewrite Hg.
    unfold bind at 1. rewrite Hn. unfold bind at 1.
    change (stock (product_of_row_list r)) with (col_stock r).
    destruct (number_input_cases 0 None 0 add c) as [[a Ha'] | [e' He']];
      rewrite ?Ha', ?He'; [|eexists; reflexivity].
    unfold bind at 1. rewrite He. eexists. reflexivity.
  - intros Hstock Hadd Hset.
    unfold update_stock_page, bind at 1. rewrite Hg.
    unfold bind at 1. rewrite Hn. unfold bind at 1.
    change (stock (product_of_row_list r)) with (col_stock r).
    rewrite number_input_within by (cbn; auto; lia).
    unfold bind at 1. rewrite number_input_within by (cbn; auto; lia).
    unfold bind at 1. rewrite Hi.
    destruct (Z.ltb_spec 0 add) as [Hpos | Hnonpos].
    + destruct (execute_update_commit_runs fault UpdateStockAdd c (col_id r)
                  (fun s => s + add) Ha Hc) as [b Hrun].
      unfold bind at 1. unfold update_stock. rewrite Hrun.
      eexists. split; [reflexivity|]. cbn [session sales].
      split; [apply Hfind|]. split; [reflexivity|]. intros; lia.
    + destruct (execute_update_commit_runs fault UpdateStockSet c (col_id r)
                  (fun _ => set_val) Hs Hc) as [b Hrun].
      unfold bind at 1. unfold set_stock. rewrite Hrun.
      eexists. split; [reflexivity|]. cbn [session sales].
      split; [apply Hfind|]. split; [reflexivity|].
      intros _ ->. rewrite update_where_id_identity_on.
      * destruct (session c); reflexivity.
      * intros r' Hr' Hid. apply Z.eqb_eq in Hid.
        assert (r' = r).
        { pose proof (find_unique_id (col_id r) _ r' Hpk Hr' Hid) as E.
          unfold product_with_id in Hr. congruence. }
        subst r'. reflexivity.
Qed.

(** X23. A product added through the "Add Product" form always has a
    category that is not NULL (the text of the input), so for it
    [get_product_by_id] and [get_products] return the same record;
    the page shows the identifier it was given. *)
Theorem add_product_page_reads_agree fault now c n cat p s :
  fault InsertProduct = None ->
  fault Commit = None ->
  fault SelectProducts = None ->
  fault SelectProductById = None ->
  primary_key (session c) ->
  auto_increment_fresh c ->
  exists c' prod ps,
    add_product_page fault now n cat p s c =
      (Return [st_success ("Product added (ID " ++
                           str_int (products_auto_increment c) ++ ")")%string], c') /\
    get_product_by_id fault (products_auto_increment c) c' = (Return (Some prod), c') /\
    get_products fault c' = (Return ps, c') /\
    find (product_has_id (products_auto_increment c)) ps = Some prod /\
    category prod = Some cat /\ name prod = n.
Proof.
  intros Hi Hc Hl Hs Hpk Hfresh.
  set (new_row := mkProductRow (products_auto_increment c) n (Some cat) p s (Some now)).
  set (c' := mkConnection
               (mkTables (products (session c) ++ [new_row]) (sales (session c)))
               (mkTables (products (session c) ++ [new_row]) (sales (session c)))
               (products_auto_increment c + 1) (sales_auto_increment c)).
  assert (Hrun : add_product fault now (mkProduct None n (Some cat) p s None) c =
                 (Return (products_auto_increment c), c')).
  { cbv [add_product bind ret server execute_insert_product commit].
    rewrite Hi. cbn. rewrite Hc. reflexivity. }
  destruct (add_product_keeps_primary_key fault now _ c _ c' Hpk Hfresh Hrun)
    as [Hpk' _].
  assert (Hr : product_with_id (products_auto_increment c) (session c') = Some new_row).
  { unfold product_with_id. cbn. apply find_app_fresh; [exact Hfresh | reflexivity]. }
  destruct (get_product_by_id_and_get_products fault c' _ new_row Hl Hs Hpk' Hr)
    as (Hget & ps & Hps & Hfind).
  exists c', (product_of_row new_row), ps.
  split; [unfold add_product_page, bind at 1; rewrite Hrun; reflexivity|].
  repeat split; auto.
Qed.

(** * The further properties at the sample stores *)

Lemma mixed_shop_well_formed : well_formed mixed_shop.
Proof.
  unfold well_formed, clean, primary_key, auto_increment_fresh,
    referential_integrity, sale_keys.
  cbn. repeat split; repeat constructor; cbn; intuition discriminate.
Qed.

Lemma twin_shop_primary_key : primary_key (session twin_shop).
Proof. repeat constructor; cbn; intuition discriminate. Qed.

Lemma mixed_shop_primary_key : primary_key (session mixed_shop).
Proof. apply mixed_shop_well_formed. Qed.

Lemma record_sale_product_not_found_witness :
  record_sale no_fault timestamp 9 1 shop =
  (Return (false, None, "Product not found"), shop).
Proof.
  exact (record_sale_product_not_found no_fault timestamp shop 9 1
           eq_refl eq_refl eq_refl).
Defined.

Lemma record_sale_read_failure_witness :
  exists c',
    session c' = session shop /\ durable c' = durable shop /\
    record_sale select_fails timestamp 1 5 shop =
      (Return (false, None, "Lock wait timeout exceeded"), c').
Proof.
  destruct (record_sale_read_failure select_fails timestamp shop 1 5
              "Lock wait timeout exceeded" eq_refl eq_refl eq_refl)
    as (c' & Hs & Hd & Hreturns & _).
  exists c'. split; [exact Hs|]. split; [exact Hd|]. exact (Hreturns eq_refl).
Defined.

Lemma record_sale_twice_witness :
  exists c1 c2,
    fst (record_sale no_fault timestamp 1 5 shop) =
      Return (true, Some (PrimFloat.mul (col_price widget) (float_of_int 5)),
              "Sale recorded") /\
    snd (record_sale no_fault timestamp 1 5 shop) = c1 /\
    fst (record_sale no_fault timestamp 1 45 c1) =
      Return (true, Some (PrimFloat.mul (col_price widget) (float_of_int 45)),
              "Sale recorded") /\
    snd (record_sale no_fault timestamp 1 45 c1) = c2 /\
    product_with_id 1 (session c2) = Some (set_col_stock 0 widget).
Proof.
  destruct (record_sale_twice no_fault timestamp timestamp shop 1 5 45 widget)
    as (c1 & c2 & H1 & H2 & Hstock & _).
  - repeat split.
  - reflexivity.
  - discriminate.
  - discriminate.
  - reflexivity.
  - reflexivity.
  - exists c1, c2. rewrite H1, H2. repeat split. exact Hstock.
Defined.


Lemma writers_keep_well_formed_witness :
  well_formed (snd (add_product no_fault timestamp invalid_product mixed_shop)) /\
  well_formed (snd (update_stock no_fault 2 3 mixed_shop)) /\
  well_formed (snd (set_stock no_fault 2 0 mixed_shop)) /\
  well_formed (snd (delete_product no_fault 2 mixed_shop)).
Proof.
  destruct (writers_keep_well_formed no_fault timestamp mixed_shop
              mixed_shop_well_formed) as (Hadd & Hupd & Hset & Hdel).
  split; [|split; [|split]].
  - exact (Hadd invalid_product 5 _ eq_refl).
  - exact (Hupd 2 3 true _ eq_refl).
  - exact (Hset 2 0 true _ eq_refl).
  - exact (Hdel 2 true _ eq_refl).
Defined.

Lemma record_sale_keeps_well_formed_witness :
  well_formed (snd (record_sale update_fails timestamp 2 3 mixed_shop)) /\
  well_formed (snd (record_sale no_fault timestamp 2 3 mixed_shop)).
Proof.
  split.
  - exact (record_sale_keeps_well_formed update_fails timestamp mixed_shop 2 3
             mixed_shop_well_formed).
  - exact (record_sale_keeps_well_formed no_fault timestamp mixed_shop 2 3
             mixed_shop_well_formed).
Defined.

Lemma update_stock_composes_witness :
  exists ok1 ok2 ok c1 c2 c12,
    update_stock no_fault 1 7 shop = (Return ok1, c1) /\
    update_stock no_fault 1 (-7) c1 = (Return ok2, c2) /\
    update_stock no_fault 1 (7 + -7) shop = (Return ok, c12) /\
    session c2 = session c12 /\
    session c2 = session shop.
Proof.
  destruct (update_stock_composes no_fault shop 1 7 (-7) eq_refl eq_refl)
    as (ok1 & ok2 & ok & c1 & c2 & c12 & H1 & H2 & H12 & Hsame & _ & Hback).
  exists ok1, ok2, ok, c1, c2, c12. repeat split; auto.
Defined.

Lemma set_stock_then_read_witness :
  exists ok c1,
    set_stock no_fault 2 9 mixed_shop = (Return ok, c1) /\
    get_product_by_id no_fault 2 c1 =
      (Return (Some (mkProduct (Some 2) "Gadget" None 5%float 9 (Some timestamp))),
       c1) /\
    set_stock no_fault 2 9 c1 = (Return false, c1).
Proof.
  exact (set_stock_then_read no_fault mixed_shop 2 9 uncategorised
           eq_refl eq_refl eq_refl mixed_shop_primary_key eq_refl).
Defined.

Lemma delete_product_twice_witness :
  delete_product no_fault 2 (snd (delete_product no_fault 2 mixed_shop)) =
  (Return false, snd (delete_product no_fault 2 mixed_shop)).
Proof.
  exact (delete_product_twice no_fault mixed_shop 2 true _ eq_refl).
Defined.

Lemma delete_product_absent_witness :
  exists c',
    delete_product no_fault 9 mixed_shop = (Return false, c') /\
    session c' = session mixed_shop /\ durable c' = session mixed_shop.
Proof.
  apply (delete_product_absent no_fault mixed_shop 9).
  - reflexivity.
  - reflexivity.
  - apply mixed_shop_well_formed.
  - reflexivity.
Defined.


Lemma add_product_then_get_products_witness :
  exists c' before,
    add_product no_fault timestamp invalid_product shop = (Return 2, c') /\
    get_products no_fault shop = (Return before, shop) /\
    get_products no_fault c' =
      (Return (before ++
               [mkProduct (Some 2) "" (Some "Tools") (PrimFloat.opp 1%float) (-5)
                          (Some timestamp)])%list, c').
Proof.
  apply (add_product_then_get_products no_fault timestamp shop invalid_product).
  - reflexivity.
  - reflexivity.
  - reflexivity.
  - repeat constructor.
Defined.

Lemma low_stock_monotone_witness :
  exists ps1 ps2,
    low_stock no_fault 5 mixed_shop = (Return ps1, mixed_shop) /\
    low_stock no_fault 10 mixed_shop = (Return ps2, mixed_shop) /\
    incl ps1 ps2.
Proof.
  apply (low_stock_monotone no_fault mixed_shop 5 10).
  - reflexivity.
  - discriminate.
Defined.

Lemma inventory_value_of_nothing_witness :
  get_total_inventory_value no_fault
    (mkConnection (mkTables [] []) (mkTables [] []) 1 1) =
  (Return PrimFloat.zero, mkConnection (mkTables [] []) (mkTables [] []) 1 1).
Proof.
  destruct (inventory_value_of_nothing no_fault
              (mkConnection (mkTables [] []) (mkTables [] []) 1 1) eq_refl)
    as (v & Hrun & Hempty & _).
  rewrite Hrun, (Hempty eq_refl). reflexivity.
Defined.

Lemma first_sale_report_witness :
  exists c',
    record_sale no_fault timestamp 1 5 shop =
      (Return (true, Some (PrimFloat.mul (col_price widget) (float_of_int 5)),
               "Sale recorded"), c') /\
    get_sales_report None c' =
      (Return [("2024-05-01", PrimFloat.mul (col_price widget) (float_of_int 5))], c').
Proof.
  apply (first_sale_report no_fault timestamp shop 1 5 widget).
  - repeat split.
  - reflexivity.
  - discriminate.
  - reflexivity.
  - reflexivity.
Defined.

Lemma delete_product_page_first_of_name_witness :
  exists c',
    delete_product_page no_fault "Widget" twin_shop =
      (Return [st_success "Deleted."], c') /\
    map col_id (products (session c')) = [2] /\
    map sale_id (sales (session c')) = [2].
Proof.
  destruct (delete_product_page_first_of_name no_fault twin_shop "Widget" widget
              eq_refl eq_refl eq_refl eq_refl) as (c' & Hrun & _).
  exists c'. split; [exact Hrun|].
  assert (E : c' = snd (delete_product_page no_fault "Widget" twin_shop))
    by (rewrite Hrun; reflexivity).
  rewrite E. split; reflexivity.
Defined.

Lemma record_sale_page_within_bounds_witness :
  exists c',
    record_sale_page no_fault timestamp "Widget" 5 twin_shop =
      (Return [st_success "Sale OK! Total ₹49.95"], c') /\
    product_with_id 1 (session c') = Some (set_col_stock 45 widget).
Proof.
  apply (record_sale_page_within_bounds no_fault timestamp twin_shop
           "Widget" 5 widget).
  - reflexivity.
  - repeat split.
  - exact twin_shop_primary_key.
  - reflexivity.
  - split; discriminate.
  - reflexivity.
Defined.

Lemma record_sale_page_shows_result_witness :
  (exists e, record_sale_page no_fault timestamp "Nut" 1 sold_out_shop =
             (Raise e, sold_out_shop)) /\
  (exists c',
      record_sale_page update_fails timestamp "Widget" 5 twin_shop =
        (Return [st_error "Lock wait timeout exceeded"], c')).
Proof.
  split.
  - apply (record_sale_page_shows_result no_fault timestamp sold_out_shop "Nut" 1
             sold_out eq_refl eq_refl).
    reflexivity.
  - destruct (record_sale_page_shows_result update_fails timestamp
                twin_shop "Widget" 5 widget eq_refl eq_refl) as [_ Hshown].
    destruct Hshown as (c' & [(msg & Hsale & Hpage) | (total & msg & Hsale & _)]).
    + split; discriminate.
    + reflexivity.
    + reflexivity.
    + exists c'. rewrite Hpage. injection Hsale as <- _. reflexivity.
    + discriminate Hsale.
Defined.

Lemma update_stock_page_effect_witness :
  (exists c',
      update_stock_page no_fault "Widget" 3 0 twin_shop =
        (Return [st_write "Current stock: 50"; st_success "Stock increased."], c') /\
      product_with_id 1 (session c') = Some (set_col_stock 53 widget)) /\
  (exists c',
      update_stock_page no_fault "Widget" 0 50 twin_shop =
        (Return [st_write "Current stock: 50"; st_success "Stock updated."], c') /\
      session c' = session twin_shop).
Proof.
  split.
  - destruct (update_stock_page_effect no_fault twin_shop "Widget" 3 0 widget
                eq_refl eq_refl eq_refl eq_refl twin_shop_primary_key eq_refl)
      as [_ Hworks].
    destruct Hworks as (c' & Hrun & Hstock & _); [discriminate ..|].
    exists c'. split; [exact Hrun | exact Hstock].
  - destruct (update_stock_page_effect no_fault twin_shop "Widget" 0 50 widget
                eq_refl eq_refl eq_refl eq_refl twin_shop_primary_key eq_refl)
      as [_ Hworks].
    destruct Hworks as (c' & Hrun & _ & _ & Hsame); [discriminate ..|].
    exists c'. split; [exact Hrun|]. apply Hsame; reflexivity.
Defined.

Lemma add_product_page_reads_agree_witness :
  exists c' prod ps,
    add_product_page no_fault timestamp "Bolt" "" 1%float 10 shop =
      (Return [st_success "Product added (ID 2)"], c') /\
    get_product_by_id no_fault 2 c' = (Return (Some prod), c') /\
    get_products no_fault c' = (Return ps, c') /\
    find (product_has_id 2) ps = Some prod /\
    category prod = Some ""%string /\ name prod = "Bolt"%string.
Proof.
  apply (add_product_page_reads_agree no_fault timestamp shop "Bolt" "" 1%float 10).
  - reflexivity.
  - reflexivity.
  - reflexivity.
  - reflexivity.
  - repeat constructor; cbn; intuition discriminate.
  - repeat constructor.
Defined.
